(** * Dexcrow escrow agents: a shallow embedding of the Python sources

    The development follows the layout of [escrow-system/]:
    - [Py]        the part of the Python runtime the sources rely on
                  (exceptions, dynamically typed values, dictionaries,
                  [len], [int(s, 16)], [float(s)], [str(x)] and the
                  fixed-point format specification);
    - [Models]    [shared/models.py];
    - [Utils]     [shared/utils.py];
    - [Protocol]  [protocols/escrow_protocol.py];
    - [Arbiter]   [agents/arbiter_agent.py];
    - [Oracle]    [agents/oracle_agent.py];
    - [Registry]  the escrow state machine of the specification.

    Definitions come first, the theorems about them afterwards. *)

From Stdlib Require Import ZArith String Ascii List Bool Lia DecimalString.
From Stdlib Require Import Floats.
From stdpp Require Import gmap strings list fin_maps.

Set Warnings "-inexact-float,-register-all".

Local Open Scope string_scope.

(* ===================================================================== *)
(** * The Python runtime                                                  *)
(* ===================================================================== *)

Module Py.

(** ** Exceptions

    Only the classes the sources can meet are listed.  [JSONDecodeError]
    derives from [ValueError]; every class derives from [Exception]. *)

Inductive exn_class : Type :=
  | Exception
  | ValueError
  | TypeError
  | KeyError
  | IndexError
  | AttributeError
  | JSONDecodeError
  | RequestException.

Record exn : Type := MkExn { exn_cls : exn_class; exn_msg : string }.

Definition exn_class_eqb (a b : exn_class) : bool :=
  match a, b with
  | Exception, Exception | ValueError, ValueError | TypeError, TypeError
  | KeyError, KeyError | IndexError, IndexError
  | AttributeError, AttributeError | JSONDecodeError, JSONDecodeError
  | RequestException, RequestException => true
  | _, _ => false
  end.

(** [subclass c d]: class [c] is [d] or derives from it. *)
Definition subclass (c d : exn_class) : bool :=
  match d with
  | Exception => true
  | ValueError => match c with ValueError | JSONDecodeError => true | _ => false end
  | _ => exn_class_eqb c d
  end.

(** ** Computations that may raise *)

Inductive result (A : Type) : Type :=
  | Ok (a : A)
  | Raise (e : exn).

Arguments Ok {A} a.
Arguments Raise {A} e.

#[global] Instance result_ret : MRet result := fun A a => Ok a.

#[global] Instance result_bind : MBind result := fun A B k r =>
  match r with
  | Ok a => k a
  | Raise e => Raise e
  end.

(** [try body except classes: handler]. *)
Definition try_except {A : Type} (body : result A)
    (classes : list exn_class) (handler : exn -> result A) : result A :=
  match body with
  | Ok a => Ok a
  | Raise e =>
      if existsb (subclass (exn_cls e)) classes then handler e else Raise e
  end.

Definition raise {A : Type} (c : exn_class) (msg : string) : result A :=
  Raise (MkExn c msg).

(** ** Dynamically typed values

    What a [Dict[str, Any]] can hold: [None], booleans, integers, floats
    (IEEE binary64), strings, lists and dictionaries keyed by strings.
    Strings are sequences of code points below 256. *)

Inductive value : Type :=
  | VNone
  | VBool (b : bool)
  | VInt (z : Z)
  | VFloat (f : float)
  | VStr (s : string)
  | VList (l : list value)
  | VDict (d : gmap string value).

(** [d.get(k, default)]. *)
Definition dict_get (d : gmap string value) (k : string) (dflt : value) : value :=
  default dflt (d !! k).

(** [k in d]. *)
Definition dict_contains (d : gmap string value) (k : string) : bool :=
  bool_decide (is_Some (d !! k)).

(** [len(v)]: defined on strings, lists and dictionaries, [TypeError]
    on the other kinds. *)
Definition len (v : value) : result nat :=
  match v with
  | VStr s => Ok (String.length s)
  | VList l => Ok (List.length l)
  | VDict d => Ok (size d)
  | _ => raise TypeError "object has no len()"
  end.

(** Truth value of an object, as [not v] and [v or w] use it. *)
Definition truthy (v : value) : bool :=
  match v with
  | VNone => false
  | VBool b => b
  | VInt z => negb (z =? 0)%Z
  | VFloat f => negb (PrimFloat.eqb f 0%float)
  | VStr s => negb (String.eqb s "")
  | VList l => match l with [] => false | _ => true end
  | VDict d => negb (bool_decide (d = ∅))
  end.

(** [v[k]]: subscription by a string key or by a non-negative index. *)
Inductive subscript : Type :=
  | Key (k : string)
  | Index (i : nat).

Definition getitem (v : value) (ix : subscript) : result value :=
  match v, ix with
  | VDict d, Key k =>
      match d !! k with
      | Some x => Ok x
      | None => raise KeyError k
      end
  | VList l, Index i =>
      match l !! i with
      | Some x => Ok x
      | None => raise IndexError "list index out of range"
      end
  | VStr s, Index i =>
      match String.get i s with
      | Some c => Ok (VStr (String c EmptyString))
      | None => raise IndexError "string index out of range"
      end
  | VDict d, Index i => raise KeyError "integer key"
  | _, _ => raise TypeError "object is not subscriptable with this index"
  end.

(** ** Characters and [int(s, 16)]

    [int] on a [str] first maps every non-ASCII white-space character to
    a blank and every other character from 127 upwards that is not a
    decimal digit to ['?'] (where it stops); below 256 the white-space
    characters are U+0085 and U+00A0 and there is no decimal digit.  It
    then reads: blanks, an optional sign, for base 16 an optional [0x]
    or [0X] followed by at most one underscore, digits separated by
    single underscores, blanks, and the end of the string. *)

Definition code (c : ascii) : N := N_of_ascii c.

(** [Py_ISSPACE]: the ASCII white space. *)
Definition is_space (c : ascii) : bool :=
  let n := code c in
  ((9 <=? n) && (n <=? 13))%N || (n =? 32)%N.

Definition to_ascii_char (c : ascii) : ascii :=
  let n := code c in
  if (n <? 127)%N then c
  else if ((n =? 133) || (n =? 160))%N then " "%char
  else "?"%char.

Fixpoint transform_decimal_and_space (s : string) : string :=
  match s with
  | EmptyString => EmptyString
  | String c s' => String (to_ascii_char c) (transform_decimal_and_space s')
  end.

Fixpoint lstrip (s : string) : string :=
  match s with
  | String c s' => if is_space c then lstrip s' else s
  | EmptyString => s
  end.

(** [_PyLong_DigitValue]: 0-9, then a-z and A-Z as 10-35. *)
Definition digit_value (c : ascii) : option N :=
  let n := code c in
  if ((48 <=? n) && (n <=? 57))%N then Some (n - 48)%N
  else if ((97 <=? n) && (n <=? 122))%N then Some (n - 87)%N
  else if ((65 <=? n) && (n <=? 90))%N then Some (n - 55)%N
  else None.

Definition is_digit_in (base : N) (c : ascii) : bool :=
  match digit_value c with
  | Some d => (d <? base)%N
  | None => false
  end.

(** The run of digits and underscores at the head of [s]: [None] when
    two underscores touch or the run ends in one, otherwise the value
    read so far, the number of digits and the rest of the string. *)
Fixpoint scan_digits (base : N) (s : string) (prev_underscore : bool)
    (acc : N) (digits : nat) : option (N * nat * string) :=
  let stop := if prev_underscore then None else Some (acc, digits, s) in
  match s with
  | EmptyString => stop
  | String c s' =>
      if Ascii.eqb c "_" then
        if prev_underscore then None
        else scan_digits base s' true acc digits
      else
        match digit_value c with
        | Some d =>
            if (d <? base)%N
            then scan_digits base s' false (acc * base + d)%N (S digits)
            else stop
        | None => stop
        end
  end.

Definition invalid_int_literal {A : Type} : result A :=
  raise ValueError "invalid literal for int() with base 16".

(** An optional sign at the head of [s]: whether it is a minus, and
    the rest. *)
Definition split_sign (s : string) : bool * string :=
  match s with
  | String "-" s' => (true, s')
  | String "+" s' => (false, s')
  | _ => (false, s)
  end.

(** The optional [0x] or [0X] of base 16, and the one underscore
    allowed after it. *)
Definition strip_base16_prefix (s : string) : string :=
  match s with
  | String "0" (String x s') =>
      if Ascii.eqb x "x" || Ascii.eqb x "X" then
        match s' with
        | String "_" s'' => s''
        | _ => s'
        end
      else s
  | _ => s
  end.

Definition starts_with_underscore (s : string) : bool :=
  match s with
  | String c _ => Ascii.eqb c "_"
  | EmptyString => false
  end.

(** [int(s, 16)]. *)
Definition int_base16 (s : string) : result Z :=
  let '(negative, s) := split_sign (lstrip (transform_decimal_and_space s)) in
  let s := strip_base16_prefix s in
  if starts_with_underscore s then invalid_int_literal
  else
    match scan_digits 16 s false 0 0 with
    | None => invalid_int_literal
    | Some (v, digits, rest) =>
        if (digits =? 0)%nat then invalid_int_literal
        else
          match lstrip rest with
          | EmptyString => Ok (if negative then (- Z.of_N v)%Z else Z.of_N v)
          | _ => invalid_int_literal
          end
    end.

(** [s.startswith(p)] and [s[n:]]. *)
Definition startswith (s p : string) : bool := String.prefix p s.

Fixpoint slice_from (n : nat) (s : string) : string :=
  match n, s with
  | O, _ => s
  | S n', String _ s' => slice_from n' s'
  | S _, EmptyString => EmptyString
  end.

(** ** [float(s)]

    On a [str], [float] applies the same character transformation as
    [int], checks that every underscore stands between two decimal
    digits and drops it, strips the ASCII white space on both sides, and
    reads an optional sign followed by [inf], [infinity] or [nan] (in
    any case) or by a decimal numeral with an optional fraction and an
    optional exponent.  The numeral is rounded to the nearest binary64
    value, ties to even; too large a value gives an infinity, too small
    a one a signed zero. *)

Definition is_decimal_digit (c : ascii) : bool :=
  let n := code c in ((48 <=? n) && (n <=? 57))%N.

Fixpoint strip_underscores (prev : ascii) (s : string) : option string :=
  match s with
  | EmptyString => if Ascii.eqb prev "_" then None else Some EmptyString
  | String c s' =>
      if Ascii.eqb c "_" then
        if is_decimal_digit prev then strip_underscores c s' else None
      else if Ascii.eqb prev "_" && negb (is_decimal_digit c) then None
      else String c <$> strip_underscores c s'
  end.

Fixpoint rstrip (s : string) : string :=
  match s with
  | EmptyString => EmptyString
  | String c s' =>
      match rstrip s' with
      | EmptyString => if is_space c then EmptyString else String c EmptyString
      | t => String c t
      end
  end.

(** [Py_TOLOWER]. *)
Definition to_lower (c : ascii) : ascii :=
  let n := code c in
  if ((65 <=? n) && (n <=? 90))%N then ascii_of_N (n + 32) else c.

Fixpoint lower (s : string) : string :=
  match s with
  | EmptyString => EmptyString
  | String c s' => String (to_lower c) (lower s')
  end.

Fixpoint read_digits (s : string) (acc : Z) (count : nat)
    : Z * nat * string :=
  match s with
  | String c s' =>
      if is_decimal_digit c
      then read_digits s' (acc * 10 + Z.of_N (code c - 48))%Z (S count)
      else (acc, count, s)
  | EmptyString => (acc, count, s)
  end.

(** A decimal numeral as [(d, e)], standing for [d * 10^e]. *)
Definition parse_decimal (s : string) : option (Z * Z) :=
  let '(int_part, n1, r1) := read_digits s 0 0 in
  let '(mantissa, n2, r2) :=
    match r1 with
    | String "." r => read_digits r int_part 0
    | _ => (int_part, O, r1)
    end in
  if (n1 + n2 =? 0)%nat then None
  else
    match r2 with
    | EmptyString => Some (mantissa, - Z.of_nat n2)%Z
    | String c r3 =>
        if Ascii.eqb c "e" || Ascii.eqb c "E" then
          let '(exp_negative, r4) := split_sign r3 in
          let '(exponent, n3, r5) := read_digits r4 0 0 in
          match n3, r5 with
          | S _, EmptyString =>
              Some (mantissa,
                    (if exp_negative then - exponent else exponent)
                    - Z.of_nat n2)%Z
          | _, _ => None
          end
        else None
    end.

(** The binary64 value nearest to [n / d] (ties to even), for [0 <= n]
    and [0 < d], with the given sign. *)
Definition float_of_ratio (negative : bool) (n d : Z) : float :=
  if (n =? 0)%Z then SF2Prim (S754_zero negative)
  else
    let s := Z.max 0 (Z.log2 d + 64 - Z.log2 n) in
    let q := (n * 2 ^ s / d)%Z in
    let r := ((n * 2 ^ s) mod d)%Z in
    let loc :=
      if (r =? 0)%Z then loc_Exact else loc_Inexact (2 * r ?= d)%Z in
    SF2Prim (binary_round_aux prec emax negative q (- s) loc).

(** The binary64 value nearest to [d * 10^e]. *)
Definition float_of_decimal (negative : bool) (d e : Z) : float :=
  if (0 <=? e)%Z then float_of_ratio negative (d * 10 ^ e) 1
  else float_of_ratio negative d (10 ^ (- e)).

Definition invalid_float_literal {A : Type} : result A :=
  raise ValueError "could not convert string to float".

Definition float_of_str (s : string) : result float :=
  match strip_underscores Ascii.zero (transform_decimal_and_space s) with
  | None => invalid_float_literal
  | Some s =>
      let '(negative, body) := split_sign (rstrip (lstrip s)) in
      let word := lower body in
      if String.eqb word "inf" || String.eqb word "infinity" then
        Ok (if negative then neg_infinity else infinity)
      else if String.eqb word "nan" then Ok nan
      else
        match parse_decimal body with
        | Some (d, e) => Ok (float_of_decimal negative d e)
        | None => invalid_float_literal
        end
  end.

(** ** The format specification [.<precision>f] *)

Definition decimal (n : Z) : string :=
  NilZero.string_of_uint (N.to_uint (Z.to_N n)).

Fixpoint zeros (n : nat) : string :=
  match n with
  | O => EmptyString
  | S n' => String "0" (zeros n')
  end.

Definition zero_pad (width : nat) (s : string) : string :=
  zeros (width - String.length s) ++ s.

(** [num / den] rounded to the nearest integer, ties to even. *)
Definition round_half_even (num den : Z) : Z :=
  let q := (num / den)%Z in
  match (2 * (num mod den) ?= den)%Z with
  | Lt => q
  | Gt => (q + 1)%Z
  | Eq => if Z.even q then q else (q + 1)%Z
  end.

(** A finite float as the fraction [(num, den)] of its absolute value. *)
Definition ratio_of_finite (m : positive) (e : Z) : Z * Z :=
  if (0 <=? e)%Z then (Z.pos m * 2 ^ e, 1)%Z else (Z.pos m, 2 ^ (- e))%Z.

Definition fixed_digits (num den : Z) (precision : Z) : string :=
  let scaled := round_half_even (num * 10 ^ precision) den in
  let int_part := (scaled / 10 ^ precision)%Z in
  let frac_part := (scaled mod 10 ^ precision)%Z in
  if (precision =? 0)%Z then decimal int_part
  else decimal int_part ++ "." ++ zero_pad (Z.to_nat precision) (decimal frac_part).

Definition signed (negative : bool) (s : string) : string :=
  if negative then "-" ++ s else s.

Definition format_float_fixed (x : float) (precision : Z) : string :=
  match Prim2SF x with
  | S754_nan => "nan"
  | S754_infinity negative => signed negative "inf"
  | S754_zero negative => signed negative (fixed_digits 0 1 precision)
  | S754_finite negative m e =>
      let '(num, den) := ratio_of_finite m e in
      signed negative (fixed_digits num den precision)
  end.

(** [f"{x:.{precision}f}"] for an integer [precision]. *)
Definition format_spec_f (x : float) (precision : Z) : result string :=
  if (precision <? 0)%Z then
    raise ValueError "Format specifier missing precision"
  else if (2147483647 <? precision)%Z then
    raise ValueError "precision too big"
  else Ok (format_float_fixed x precision).

(** ** [str(x)] for a float

    The shortest decimal numeral that [float] reads back as [x], the
    nearest to [x] among those of that length; written in positional
    notation when the decimal point falls within [-4 < decpt <= 16],
    with an exponent otherwise. *)

(** [decimal_point num den = k] with [10^(k-1) <= num/den < 10^k],
    for [10^-400 <= num/den]. *)
Definition decimal_point (num den : Z) : Z :=
  (Z.of_nat (String.length (decimal (num * 10 ^ 400 / den))) - 400)%Z.

(** The two numerals of [n] digits around [num/den], the nearer first. *)
Definition candidates (num den k : Z) (n : Z) : list Z :=
  let '(a, b) :=
    if (k <=? n)%Z then (num * 10 ^ (n - k), den)%Z
    else (num, den * 10 ^ (k - n))%Z in
  let q := (a / b)%Z in
  match (2 * (a mod b) ?= b)%Z with
  | Lt => [q; (q + 1)%Z]
  | Gt => [(q + 1)%Z; q]
  | Eq => if Z.even q then [q; (q + 1)%Z] else [(q + 1)%Z; q]
  end.

Fixpoint shortest_digits (x : float) (num den k : Z) (n : Z) (fuel : nat)
    : Z * Z :=
  let cs := candidates num den k n in
  match List.find (fun c => PrimFloat.eqb (float_of_decimal false c (k - n)) x) cs with
  | Some c => (c, (k - n)%Z)
  | None =>
      match fuel with
      | O => (List.hd 0%Z cs, (k - n)%Z)
      | S fuel' => shortest_digits x num den k (n + 1) fuel'
      end
  end.

Fixpoint drop_trailing_zeros (c e : Z) (fuel : nat) : Z * Z :=
  match fuel with
  | O => (c, e)
  | S fuel' =>
      if (c mod 10 =? 0)%Z && negb (c =? 0)%Z
      then drop_trailing_zeros (c / 10) (e + 1) fuel'
      else (c, e)
  end.

Definition repr_finite (x : float) (m : positive) (e : Z) : string :=
  let '(num, den) := ratio_of_finite m e in
  let k := decimal_point num den in
  let '(c, e10) := shortest_digits x num den k 1 16 in
  let '(c, e10) := drop_trailing_zeros c e10 18 in
  let digits := decimal c in
  let ndigits := Z.of_nat (String.length digits) in
  let decpt := (e10 + ndigits)%Z in
  if ((decpt <=? -4) || (16 <? decpt))%Z then
    let mantissa :=
      match digits with
      | String d EmptyString => digits
      | String d rest => String d ("." ++ rest)
      | EmptyString => digits
      end in
    let exponent := (decpt - 1)%Z in
    mantissa ++ "e" ++ (if (exponent <? 0)%Z then "-" else "+")
             ++ zero_pad 2 (decimal (Z.abs exponent))
  else if (decpt <=? 0)%Z then
    "0." ++ zeros (Z.to_nat (- decpt)) ++ digits
  else if (ndigits <=? decpt)%Z then
    digits ++ zeros (Z.to_nat (decpt - ndigits)) ++ ".0"
  else
    substring 0 (Z.to_nat decpt) digits ++ "."
    ++ slice_from (Z.to_nat decpt) digits.

Definition str_of_float (x : float) : string :=
  match Prim2SF x with
  | S754_nan => "nan"
  | S754_infinity negative => signed negative "inf"
  | S754_zero negative => signed negative "0.0"
  | S754_finite negative m e => signed negative (repr_finite (abs x) m e)
  end.

End Py.

Export Py.

(* ===================================================================== *)
(** * protocols/escrow_protocol.py                                        *)
(* ===================================================================== *)

Module Protocol.

(** ** [class EscrowMessageTypes] *)

Module EscrowMessageTypes.
Definition CREATE_ESCROW := "create_escrow".
Definition ESCROW_CREATED := "escrow_created".
Definition DEPOSIT_REQUEST := "deposit_request".
Definition DEPOSIT_CONFIRMED := "deposit_confirmed".
Definition FULFILLMENT_REQUEST := "fulfillment_request".
Definition FULFILLMENT_CONFIRMED := "fulfillment_confirmed".
Definition RELEASE_REQUEST := "release_request".
Definition REFUND_REQUEST := "refund_request".
Definition DISPUTE_RAISED := "dispute_raised".
Definition DISPUTE_RESOLVED := "dispute_resolved".
Definition STATUS_UPDATE := "status_update".
Definition ORACLE_VERIFICATION := "oracle_verification".
Definition ORACLE_RESPONSE := "oracle_response".
Definition HEARTBEAT := "heartbeat".
Definition ERROR := "error".
Definition SUCCESS := "success".
End EscrowMessageTypes.

Import EscrowMessageTypes.

(** What one constructor call reads from its surroundings:
    [datetime.now(timezone.utc).isoformat()], [str(uuid4())] and, for the
    heartbeat, [int(datetime.now(timezone.utc).timestamp())]. *)
Record ambient : Type := MkAmbient {
  iso_now : string;
  fresh_uuid : string;
  epoch_now : Z
}.

Definition create_escrow_message (a : ambient)
    (escrow_data : gmap string value) : gmap string value :=
  {[ "type" := VStr CREATE_ESCROW;
     "timestamp" := VStr (iso_now a);
     "msg_id" := VStr (fresh_uuid a);
     "data" := VDict escrow_data ]}.

Definition create_deposit_message (a : ambient) (escrow_id : string)
    (asset_data : gmap string value) (transaction_hash : string)
    : gmap string value :=
  {[ "type" := VStr DEPOSIT_REQUEST;
     "timestamp" := VStr (iso_now a);
     "msg_id" := VStr (fresh_uuid a);
     "data" := VDict {[ "escrow_id" := VStr escrow_id;
                        "asset_data" := VDict asset_data;
                        "transaction_hash" := VStr transaction_hash ]} ]}.

Definition create_fulfillment_message (a : ambient) (escrow_id : string)
    (fulfillment_data : gmap string value) : gmap string value :=
  {[ "type" := VStr FULFILLMENT_REQUEST;
     "timestamp" := VStr (iso_now a);
     "msg_id" := VStr (fresh_uuid a);
     "data" := VDict {[ "escrow_id" := VStr escrow_id;
                        "fulfillment_data" := VDict fulfillment_data ]} ]}.

Definition create_dispute_message (a : ambient) (escrow_id : string)
    (dispute_data : gmap string value) : gmap string value :=
  {[ "type" := VStr DISPUTE_RAISED;
     "timestamp" := VStr (iso_now a);
     "msg_id" := VStr (fresh_uuid a);
     "data" := VDict {[ "escrow_id" := VStr escrow_id;
                        "dispute_data" := VDict dispute_data ]} ]}.

Definition create_oracle_verification_message (a : ambient)
    (escrow_id : string) (transaction_data : gmap string value)
    : gmap string value :=
  {[ "type" := VStr ORACLE_VERIFICATION;
     "timestamp" := VStr (iso_now a);
     "msg_id" := VStr (fresh_uuid a);
     "data" := VDict {[ "escrow_id" := VStr escrow_id;
                        "transaction_data" := VDict transaction_data ]} ]}.

Definition create_status_update_message (a : ambient)
    (escrow_id old_status new_status reason : string) : gmap string value :=
  {[ "type" := VStr STATUS_UPDATE;
     "timestamp" := VStr (iso_now a);
     "msg_id" := VStr (fresh_uuid a);
     "data" := VDict {[ "escrow_id" := VStr escrow_id;
                        "old_status" := VStr old_status;
                        "new_status" := VStr new_status;
                        "reason" := VStr reason ]} ]}.

(** [details: str = None]. *)
Definition create_error_message (a : ambient) (error : string)
    (details : option string) : gmap string value :=
  {[ "type" := VStr ERROR;
     "timestamp" := VStr (iso_now a);
     "msg_id" := VStr (fresh_uuid a);
     "data" := VDict {[ "error" := VStr error;
                        "details" := from_option VStr VNone details ]} ]}.

(** [data: Dict[str, Any] = None], stored as [data or {}]. *)
Definition create_success_message (a : ambient) (message : string)
    (data : option (gmap string value)) : gmap string value :=
  {[ "type" := VStr SUCCESS;
     "timestamp" := VStr (iso_now a);
     "msg_id" := VStr (fresh_uuid a);
     "data" := VDict {[ "message" := VStr message;
                        "data" := let d := from_option VDict VNone data in
                                  if truthy d then d else VDict ∅ ]} ]}.

Definition create_heartbeat_message (a : ambient)
    (agent_type status : string) : gmap string value :=
  {[ "type" := VStr HEARTBEAT;
     "timestamp" := VStr (iso_now a);
     "msg_id" := VStr (fresh_uuid a);
     "data" := VDict {[ "agent_type" := VStr agent_type;
                        "status" := VStr status;
                        "uptime" := VInt (epoch_now a) ]} ]}.

Definition parse_message_type (message : gmap string value) : value :=
  dict_get message "type" (VStr "unknown").

Definition parse_message_data (message : gmap string value) : value :=
  dict_get message "data" (VDict ∅).

Definition required_fields : list string :=
  ["type"; "timestamp"; "msg_id"; "data"].

Definition validate_message (message : gmap string value) : bool :=
  forallb (fun field => dict_contains message field) required_fields.

Definition create_acknowledgement_message (a : ambient)
    (original_msg_id : string) : gmap string value :=
  {[ "type" := VStr "acknowledgement";
     "timestamp" := VStr (iso_now a);
     "msg_id" := VStr (fresh_uuid a);
     "data" := VDict {[ "acknowledged_msg_id" := VStr original_msg_id ]} ]}.

Definition create_response_message (a : ambient)
    (original_msg_id response_type : string)
    (response_data : gmap string value) : gmap string value :=
  {[ "type" := VStr response_type;
     "timestamp" := VStr (iso_now a);
     "msg_id" := VStr (fresh_uuid a);
     "data" := VDict {[ "original_msg_id" := VStr original_msg_id;
                        "response_data" := VDict response_data ]} ]}.

(** ** [class EscrowProtocolConstants] *)

Module EscrowProtocolConstants.
Definition PROTOCOL_VERSION := "1.0.0".
Definition SUPPORTED_MESSAGE_TYPES : list string :=
  [ CREATE_ESCROW; ESCROW_CREATED; DEPOSIT_REQUEST; DEPOSIT_CONFIRMED;
    FULFILLMENT_REQUEST; FULFILLMENT_CONFIRMED; RELEASE_REQUEST;
    REFUND_REQUEST; DISPUTE_RAISED; DISPUTE_RESOLVED; STATUS_UPDATE;
    ORACLE_VERIFICATION; ORACLE_RESPONSE; HEARTBEAT; ERROR; SUCCESS ].
Definition MESSAGE_TIMEOUT : Z := 30.
Definition HEARTBEAT_INTERVAL : Z := 60.
Definition DISPUTE_TIMEOUT : Z := 86400.
Definition MAX_RETRIES : Z := 3.
Definition RETRY_DELAY : Z := 5.
End EscrowProtocolConstants.

(** ** The constructor calls, as data

    One constructor per [create_*] function of the module, carrying the
    arguments of the call. *)
Inductive constructor_call : Type :=
  | CreateEscrow (escrow_data : gmap string value)
  | CreateDeposit (escrow_id : string) (asset_data : gmap string value)
      (transaction_hash : string)
  | CreateFulfillment (escrow_id : string) (fulfillment_data : gmap string value)
  | CreateDispute (escrow_id : string) (dispute_data : gmap string value)
  | CreateOracleVerification (escrow_id : string)
      (transaction_data : gmap string value)
  | CreateStatusUpdate (escrow_id old_status new_status reason : string)
  | CreateError (error : string) (details : option string)
  | CreateSuccess (message : string) (data : option (gmap string value))
  | CreateHeartbeat (agent_type status : string)
  | CreateAcknowledgement (original_msg_id : string)
  | CreateResponse (original_msg_id response_type : string)
      (response_data : gmap string value).

Definition build (a : ambient) (c : constructor_call) : gmap string value :=
  match c with
  | CreateEscrow d => create_escrow_message a d
  | CreateDeposit i d h => create_deposit_message a i d h
  | CreateFulfillment i d => create_fulfillment_message a i d
  | CreateDispute i d => create_dispute_message a i d
  | CreateOracleVerification i d => create_oracle_verification_message a i d
  | CreateStatusUpdate i o n r => create_status_update_message a i o n r
  | CreateError e d => create_error_message a e d
  | CreateSuccess m d => create_success_message a m d
  | CreateHeartbeat t s => create_heartbeat_message a t s
  | CreateAcknowledgement i => create_acknowledgement_message a i
  | CreateResponse i t d => create_response_message a i t d
  end.

End Protocol.

(* ===================================================================== *)
(** * shared/models.py                                                    *)
(* ===================================================================== *)

Module Models.

Inductive EscrowState : Type :=
  | AWAITING_DEPOSIT
  | AWAITING_FULFILLMENT
  | DISPUTE_RAISED
  | COMPLETED
  | CANCELED.

Inductive TradeType : Type := CRYPTO | FIAT_P2P | CROSS_CHAIN.

Inductive AssetType : Type := ETH | ERC20 | ERC721 | ERC1155 | BTC | FIAT.

Inductive ChainType : Type := ETHEREUM | BASE | CELO | OPTIMISM | BSC | BITCOIN.

Record Asset : Type := MkAsset {
  type : AssetType;
  address : option string;
  amount : string;
  chain : ChainType;
  symbol : option string;
  decimals : Z;
  name : option string
}.

Record EscrowTerms : Type := MkEscrowTerms {
  description : string;
  deadline : Z;
  auto_release_hours : option Z;
  dispute_window_hours : Z;
  arbiter_fee_percentage : float;
  platform_fee_percentage : float
}.

Record EscrowData : Type := MkEscrowData {
  escrow_id : string;
  contract_address : option string;
  status : EscrowState;
  trade_type : TradeType;
  buyer_address : string;
  seller_address : string;
  arbiter_address : string;
  creator_agent : string;
  asset_a : option Asset;
  asset_b : option Asset;
  terms : option EscrowTerms;
  created_at : Z;
  updated_at : Z;
  deposit_tx_hash : option string;
  fulfillment_tx_hash : option string;
  release_tx_hash : option string;
  refund_tx_hash : option string;
  dispute_id : option string;
  dispute_reason : option string;
  dispute_evidence : list (gmap string value);
  frontend_callback_url : option string;
  frontend_session_id : option string;
  metadata : gmap string value
}.

(** [class DisputeEvidence]; the fields [type], [description] and
    [data] carry a prefix, their names being taken above. *)
Record DisputeEvidence : Type := MkDisputeEvidence {
  evidence_type : string;
  evidence_description : string;
  evidence_data : string;
  timestamp : Z;
  submitted_by : string
}.

End Models.

(* ===================================================================== *)
(** * shared/utils.py                                                     *)
(* ===================================================================== *)

Module Utils.

Import Models.

(** [not s] for a string. *)
Definition empty_str (s : string) : bool := negb (truthy (VStr s)).

Definition validate_address (address : string) : result bool :=
  if empty_str address then Ok false
  else if startswith address "0x" && (String.length address =? 42)%nat then
    try_except
      (_ ← int_base16 (slice_from 2 address); Ok true)
      [ValueError] (fun _ => Ok false)
  else Ok false.

Definition validate_transaction_hash (tx_hash : string) : result bool :=
  if empty_str tx_hash then Ok false
  else if startswith tx_hash "0x" && (String.length tx_hash =? 66)%nat then
    try_except
      (_ ← int_base16 (slice_from 2 tx_hash); Ok true)
      [ValueError] (fun _ => Ok false)
  else Ok false.

Definition append_if (cond : bool) (msg : string) (errors : list string)
    : list string :=
  if cond then errors ++ [msg] else errors.

(** [now] is [int(time.time())] at the moment of the call. *)
Definition validate_escrow_data (now : Z) (escrow_data : EscrowData)
    : result (list string) :=
  let errors := [] in
  buyer_ok ← validate_address (buyer_address escrow_data);
  let errors := append_if (negb buyer_ok) "Invalid buyer address" errors in
  seller_ok ← validate_address (seller_address escrow_data);
  let errors := append_if (negb seller_ok) "Invalid seller address" errors in
  arbiter_ok ← validate_address (arbiter_address escrow_data);
  let errors := append_if (negb arbiter_ok) "Invalid arbiter address" errors in
  let errors :=
    append_if (empty_str (escrow_id escrow_data)
               || (String.length (escrow_id escrow_data) <? 10)%nat)
      "Invalid escrow ID" errors in
  let errors :=
    append_if (match asset_a escrow_data with
               | None => true
               | Some a => empty_str (amount a)
               end)
      "Asset A is required" errors in
  let errors :=
    append_if (match asset_b escrow_data with
               | None => true
               | Some b => empty_str (amount b)
               end)
      "Asset B is required" errors in
  let errors :=
    append_if (match terms escrow_data with
               | None => true
               | Some t => empty_str (description t)
               end)
      "Escrow description is required" errors in
  let errors :=
    append_if (match terms escrow_data with
               | None => false
               | Some t => (deadline t <=? now)%Z
               end)
      "Deadline must be in the future" errors in
  Ok errors.

(** [decimals: int = 18]. *)
Definition format_amount (amount : string) (decimals : Z) : result string :=
  try_except
    (amount_float ← float_of_str amount;
     format_spec_f amount_float decimals)
    [ValueError; TypeError] (fun _ => Ok "0.0").

(** [platform_fee_percentage: float = 0.5] and
    [arbiter_fee_percentage: float = 1.0]. *)
Definition calculate_fees (amount : string)
    (platform_fee_percentage arbiter_fee_percentage : float)
    : result (gmap string string) :=
  try_except
    (amount_float ← float_of_str amount;
     let platform_fee := (amount_float * (platform_fee_percentage / 100))%float in
     let arbiter_fee := (amount_float * (arbiter_fee_percentage / 100))%float in
     let net_amount := (amount_float - platform_fee - arbiter_fee)%float in
     total_s ← format_amount (str_of_float amount_float) 18;
     platform_fee_s ← format_amount (str_of_float platform_fee) 18;
     arbiter_fee_s ← format_amount (str_of_float arbiter_fee) 18;
     net_amount_s ← format_amount (str_of_float net_amount) 18;
     Ok ({[ "total" := total_s;
            "platform_fee" := platform_fee_s;
            "arbiter_fee" := arbiter_fee_s;
            "net_amount" := net_amount_s ]} : gmap string string))
    [ValueError; TypeError]
    (fun _ => Ok ({[ "total" := "0.0";
                     "platform_fee" := "0.0";
                     "arbiter_fee" := "0.0";
                     "net_amount" := "0.0" ]} : gmap string string)).

End Utils.

(* ===================================================================== *)
(** * agents/arbiter_agent.py                                             *)
(* ===================================================================== *)

Module Arbiter.

Definition analyze_dispute (dispute_data : gmap string value)
    : result (gmap string value) :=
  let analysis : gmap string value :=
    {[ "dispute_id" := dict_get dispute_data "dispute_id" VNone;
       "parties" :=
         VDict {[ "buyer" := dict_get dispute_data "buyer_address" VNone;
                  "seller" := dict_get dispute_data "seller_address" VNone ]};
       "evidence" := dict_get dispute_data "evidence" (VList []);
       "recommendation" := VStr "REQUIRES_MORE_EVIDENCE";
       "confidence" := VFloat 0.5;
       "reasoning" := VStr "Insufficient evidence to make a decision";
       "required_evidence" :=
         VList [ VStr "Transaction proof";
                 VStr "Communication logs";
                 VStr "Delivery confirmation" ] ]} in
  evidence_count ← len (dict_get dispute_data "evidence" (VList []));
  if (3 <=? evidence_count)%nat then
    Ok (<[ "reasoning" := VStr "Sufficient evidence supports seller's claim" ]>
        (<[ "confidence" := VFloat 0.8 ]>
         (<[ "recommendation" := VStr "RELEASE_FUNDS" ]> analysis)))
  else if (1 <=? evidence_count)%nat then
    Ok (<[ "reasoning" := VStr "Evidence supports buyer's claim" ]>
        (<[ "confidence" := VFloat 0.6 ]>
         (<[ "recommendation" := VStr "REFUND_FUNDS" ]> analysis)))
  else Ok analysis.

End Arbiter.

(* ===================================================================== *)
(** * agents/oracle_agent.py                                              *)
(* ===================================================================== *)

Module Oracle.

(** What [requests.post] hands back: [raise_for_status()] and [json()]
    either return or raise. *)
Record response : Type := MkResponse {
  raise_for_status : result unit;
  json : result value
}.

(** The surroundings of the agent: the environment variable read into
    [ASI_ONE_API_KEY], the remote service behind [requests.post] (it
    sees the key and the six fields the prompt is written from), and
    [json.loads] on a string. *)
Record environment : Type := MkEnvironment {
  ASI_ONE_API_KEY : option string;
  requests_post : string -> list value -> result response;
  json_parse : string -> result value
}.

(** [json.loads(v)]: a [TypeError] on anything that is not a string. *)
Definition json_loads (env : environment) (v : value) : result value :=
  match v with
  | VStr s => json_parse env s
  | _ => raise TypeError "the JSON object must be str, bytes or bytearray"
  end.

(** The [transaction_data.get(field, 'N/A')] values the prompt quotes. *)
Definition prompt_fields (transaction_data : gmap string value) : list value :=
  map (fun field => dict_get transaction_data field (VStr "N/A"))
    [ "transaction_hash"; "amount"; "token"; "chain_id";
      "from_address"; "to_address" ].

Definition not_verified (error : string) : value :=
  VDict {[ "verified" := VBool false;
           "confidence" := VFloat 0.0;
           "error" := VStr error ]}.

Definition verify_transaction_with_ai (env : environment)
    (transaction_data : gmap string value) : result value :=
  match ASI_ONE_API_KEY env with
  | None => Ok (not_verified "AI service not configured")
  | Some api_key =>
      if negb (truthy (VStr api_key)) then Ok (not_verified "AI service not configured")
      else
        try_except
          (response ← requests_post env api_key (prompt_fields transaction_data);
           _ ← raise_for_status response;
           result ← json response;
           choices ← getitem result (Key "choices");
           choice ← getitem choices (Index 0);
           message ← getitem choice (Key "message");
           ai_response ← getitem message (Key "content");
           try_except
             (verification_result ← json_loads env ai_response;
              Ok verification_result)
             [JSONDecodeError]
             (fun _ => Ok (not_verified "Failed to parse AI response")))
          [Exception]
          (fun e => Ok (not_verified (exn_msg e)))
  end.

End Oracle.

(* ===================================================================== *)
(** * The escrow registry                                                 *)
(* ===================================================================== *)

Module Registry.

Import Models.

(** The Python sources declare the states ([Models.EscrowState]) and the
    proof validator ([Utils.validate_transaction_hash]); the component
    that applies commands to escrows is not among them, and is modelled
    here from sections 3, 4.1 and 7 of the specification. *)

(** Modelled from the spec: the decision of [resolveDispute], release
    or refund. *)
Inductive decision : Type := Release | Refund.

(** Modelled from the spec: the status of a dispute record, open,
    under review or resolved. *)
Inductive dispute_status : Type := Open | UnderReview | Resolved.

(** Modelled from the spec: the dispute record of section 3, with its
    reason, its evidence, its status and, once resolved, the decision. *)
Record dispute_record : Type := MkDispute {
  dispute_reason : string;
  dispute_evidence : list DisputeEvidence;
  dispute_state : dispute_status;
  dispute_decision : option decision
}.

(** Modelled from the spec: the part of an escrow the registry acts
    on, its status, its trade type, the deposit with its proof, the
    release mark and the dispute raised against it. *)
Record escrow : Type := MkEscrow {
  escrow_status : EscrowState;
  escrow_trade_type : TradeType;
  escrow_deposit : option (Asset * option string);
  escrow_released : bool;
  escrow_dispute : option dispute_record
}.

(** Modelled from the spec: the mutating operations of section 4.1 on
    an existing escrow, and the withdrawal that cancels it. *)
Inductive command : Type :=
  | Deposit (asset : Asset) (proof : option string)
  | ConfirmFulfillment
  | RaiseDispute (reason : string) (evidence : list DisputeEvidence)
  | ResolveDispute (d : decision)
  | Cancel.

(** Modelled from the spec: the errors of section 7 the registry
    returns. *)
Inductive error : Type :=
  | ValidationError (reasons : list string)
  | InvalidStateError
  | NotFoundError.

(** Modelled from the spec: what the caller is told, beside the
    registry as the command leaves it. *)
Inductive outcome : Type :=
  | Applied
  | Rejected (e : error).

(** Modelled from the spec: the transition graph of section 4.1,
    [AWAITING_DEPOSIT -> AWAITING_FULFILLMENT -> COMPLETED], with
    [DISPUTE_RAISED] reachable from either of the first two and
    resolving to [COMPLETED] or [CANCELED], and [CANCELED] also
    reachable directly from [AWAITING_DEPOSIT]; each edge carries the
    command that takes it. *)
Inductive transition : EscrowState -> command -> EscrowState -> Prop :=
  | t_deposit asset proof :
      transition AWAITING_DEPOSIT (Deposit asset proof) AWAITING_FULFILLMENT
  | t_fulfil :
      transition AWAITING_FULFILLMENT ConfirmFulfillment COMPLETED
  | t_dispute_before_deposit reason evidence :
      transition AWAITING_DEPOSIT (RaiseDispute reason evidence) DISPUTE_RAISED
  | t_dispute_before_fulfilment reason evidence :
      transition AWAITING_FULFILLMENT (RaiseDispute reason evidence) DISPUTE_RAISED
  | t_release :
      transition DISPUTE_RAISED (ResolveDispute Release) COMPLETED
  | t_refund :
      transition DISPUTE_RAISED (ResolveDispute Refund) CANCELED
  | t_cancel :
      transition AWAITING_DEPOSIT Cancel CANCELED.

(** Modelled from the spec: whether the graph has an edge for [c] out
    of [s]. *)
Definition legal (s : EscrowState) (c : command) : bool :=
  match s, c with
  | AWAITING_DEPOSIT, (Deposit _ _ | RaiseDispute _ _ | Cancel) => true
  | AWAITING_FULFILLMENT, (ConfirmFulfillment | RaiseDispute _ _) => true
  | DISPUTE_RAISED, ResolveDispute _ => true
  | _, _ => false
  end.

(** Modelled from the spec: the trade types whose deposits are made on
    a chain. *)
Definition on_chain (t : TradeType) : bool :=
  match t with
  | CRYPTO | CROSS_CHAIN => true
  | FIAT_P2P => false
  end.

(** Modelled from the spec: a well-formed transaction proof is a hash
    that [Utils.validate_transaction_hash] accepts. *)
Definition well_formed_proof (proof : option string) : bool :=
  match proof with
  | Some h =>
      match Utils.validate_transaction_hash h with
      | Ok b => b
      | Raise _ => false
      end
  | None => false
  end.

(** Modelled from the spec: the escrow [e] moved to the status [s]. *)
Definition set_status (s : EscrowState) (e : escrow) : escrow :=
  MkEscrow s (escrow_trade_type e) (escrow_deposit e) (escrow_released e)
    (escrow_dispute e).

(** Modelled from the spec: [deposit(id, asset, proof)] requires
    [AWAITING_DEPOSIT] and, for an on-chain trade, a well-formed proof;
    it moves the escrow to [AWAITING_FULFILLMENT]; it fails with
    [InvalidStateError] when called out of order and with
    [ValidationError] when the proof is malformed. *)
Definition deposit (reg : gmap string escrow) (id : string)
    (asset : Asset) (proof : option string) : gmap string escrow * outcome :=
  match reg !! id with
  | None => (reg, Rejected NotFoundError)
  | Some e =>
      match escrow_status e with
      | AWAITING_DEPOSIT =>
          if on_chain (escrow_trade_type e) && negb (well_formed_proof proof)
          then (reg, Rejected (ValidationError ["Malformed transaction proof"]))
          else
            (<[ id := MkEscrow AWAITING_FULFILLMENT (escrow_trade_type e)
                        (Some (asset, proof)) (escrow_released e)
                        (escrow_dispute e) ]> reg,
             Applied)
      | _ => (reg, Rejected InvalidStateError)
      end
  end.

(** Modelled from the spec: [confirmFulfillment(id)] requires
    [AWAITING_FULFILLMENT], moves the escrow to [COMPLETED] and marks a
    release; [InvalidStateError] otherwise. *)
Definition confirmFulfillment (reg : gmap string escrow) (id : string)
    : gmap string escrow * outcome :=
  match reg !! id with
  | None => (reg, Rejected NotFoundError)
  | Some e =>
      match escrow_status e with
      | AWAITING_FULFILLMENT =>
          (<[ id := MkEscrow COMPLETED (escrow_trade_type e)
                      (escrow_deposit e) true (escrow_dispute e) ]> reg,
           Applied)
      | _ => (reg, Rejected InvalidStateError)
      end
  end.

(** Modelled from the spec: [raiseDispute(id, reason, evidence)] is
    allowed from [AWAITING_DEPOSIT] or [AWAITING_FULFILLMENT], creates a
    dispute record and moves the escrow to [DISPUTE_RAISED];
    [InvalidStateError] when the escrow is terminal or already
    disputed. *)
Definition raiseDispute (reg : gmap string escrow) (id : string)
    (reason : string) (evidence : list DisputeEvidence)
    : gmap string escrow * outcome :=
  match reg !! id with
  | None => (reg, Rejected NotFoundError)
  | Some e =>
      match escrow_status e with
      | AWAITING_DEPOSIT | AWAITING_FULFILLMENT =>
          (<[ id := MkEscrow DISPUTE_RAISED (escrow_trade_type e)
                      (escrow_deposit e) (escrow_released e)
                      (Some (MkDispute reason evidence Open None)) ]> reg,
           Applied)
      | _ => (reg, Rejected InvalidStateError)
      end
  end.

(** Modelled from the spec: [resolveDispute(id, decision)] requires
    [DISPUTE_RAISED]; it moves the escrow to [COMPLETED] on a release
    and to [CANCELED] on a refund and marks the dispute record
    resolved; [InvalidStateError] when no open dispute exists. *)
Definition resolveDispute (reg : gmap string escrow) (id : string)
    (d : decision) : gmap string escrow * outcome :=
  match reg !! id with
  | None => (reg, Rejected NotFoundError)
  | Some e =>
      match escrow_status e, escrow_dispute e with
      | DISPUTE_RAISED, Some dr =>
          match dispute_state dr with
          | Resolved => (reg, Rejected InvalidStateError)
          | _ =>
              (<[ id := MkEscrow
                          (match d with Release => COMPLETED | Refund => CANCELED end)
                          (escrow_trade_type e) (escrow_deposit e)
                          (match d with Release => true | Refund => escrow_released e end)
                          (Some (MkDispute (dispute_reason dr)
                                   (dispute_evidence dr) Resolved (Some d))) ]> reg,
               Applied)
          end
      | _, _ => (reg, Rejected InvalidStateError)
      end
  end.

(** Modelled from the spec: the direct edge from [AWAITING_DEPOSIT] to
    [CANCELED] (timeout or withdrawal). *)
Definition cancel (reg : gmap string escrow) (id : string)
    : gmap string escrow * outcome :=
  match reg !! id with
  | None => (reg, Rejected NotFoundError)
  | Some e =>
      match escrow_status e with
      | AWAITING_DEPOSIT => (<[ id := set_status CANCELED e ]> reg, Applied)
      | _ => (reg, Rejected InvalidStateError)
      end
  end.

(** Modelled from the spec: [status(id)], a read-only lookup. *)
Definition status (reg : gmap string escrow) (id : string)
    : error + EscrowState :=
  match reg !! id with
  | None => inl NotFoundError
  | Some e => inr (escrow_status e)
  end.

(** Modelled from the spec: the registry applies a command to the
    escrow it names. *)
Definition execute (reg : gmap string escrow) (id : string) (c : command)
    : gmap string escrow * outcome :=
  match c with
  | Deposit asset proof => deposit reg id asset proof
  | ConfirmFulfillment => confirmFulfillment reg id
  | RaiseDispute reason evidence => raiseDispute reg id reason evidence
  | ResolveDispute d => resolveDispute reg id d
  | Cancel => cancel reg id
  end.

End Registry.

(* ===================================================================== *)
(** * More of the Python runtime: slices, joins and [str] of an integer   *)
(* ===================================================================== *)

Module PySeq.

(** Where an index of a slice falls in a sequence of [len] items: a
    negative index counts from the end, and both ends are clipped. *)
Definition clamp_index (len : nat) (i : Z) : nat :=
  if (i <? 0)%Z then Z.to_nat (Z.max 0 (Z.of_nat len + i))
  else Nat.min len (Z.to_nat i).

(** [s[:stop]]. *)
Definition slice_to (s : string) (stop : Z) : string :=
  substring 0 (clamp_index (String.length s) stop) s.

(** [s[start:]]. *)
Definition slice_from_index (s : string) (start : Z) : string :=
  slice_from (clamp_index (String.length s) start) s.

(** [sep.join(parts)]. *)
Fixpoint join (sep : string) (parts : list string) : string :=
  match parts with
  | [] => EmptyString
  | [p] => p
  | p :: rest => p ++ sep ++ join sep rest
  end.

(** [str(n)] for an integer. *)
Definition str_of_int (n : Z) : string :=
  if (n <? 0)%Z then "-" ++ decimal (- n) else decimal n.

End PySeq.

(* ===================================================================== *)
(** * shared/models.py: the dispute record                                *)
(* ===================================================================== *)

Module Disputes.

(** [class DisputeRecord], in a module of its own: its fields share
    names with those of [Models.EscrowData]. *)
Record DisputeRecord : Type := MkDisputeRecord {
  dispute_id : string;
  escrow_id : string;
  disputing_party : string;
  reason : string;
  evidence : list Models.DisputeEvidence;
  status : string;
  arbiter_address : string;
  created_at : Z;
  resolved_at : option Z;
  decision : option string;
  arbiter_reasoning : option string
}.

End Disputes.

(* ===================================================================== *)
(** * shared/utils.py: display helpers                                    *)
(* ===================================================================== *)

Module UtilsDisplay.

Import PySeq.

(** [length: int = 8]. *)
Definition format_address (address : string) (length : Z) : string :=
  if Utils.empty_str address
     || (Z.of_nat (String.length address) <? length * 2 + 2)%Z
  then address
  else slice_to address length ++ "..." ++ slice_from_index address (- length).

(** The dictionary [calculate_time_remaining] returns, with its six
    keys. *)
Record time_remaining : Type := MkTimeRemaining {
  total_seconds : Z;
  days : Z;
  hours : Z;
  minutes : Z;
  seconds : Z;
  expired : bool
}.

(** [now] is [int(time.time())] at the moment of the call. *)
Definition calculate_time_remaining (now deadline : Z) : time_remaining :=
  let current_time := now in
  let remaining := (deadline - current_time)%Z in
  if (remaining <=? 0)%Z then MkTimeRemaining 0 0 0 0 0 true
  else
    let days := (remaining / (24 * 60 * 60))%Z in
    let hours := ((remaining mod (24 * 60 * 60)) / (60 * 60))%Z in
    let minutes := ((remaining mod (60 * 60)) / 60)%Z in
    let seconds := (remaining mod 60)%Z in
    MkTimeRemaining remaining days hours minutes seconds false.

(** The list [parts] that [format_time_remaining] collects. *)
Definition time_parts (time_data : time_remaining) : list string :=
  let parts : list string := [] in
  let parts :=
    if (0 <? days time_data)%Z
    then (parts ++ [(str_of_int (days time_data) ++ "d")%string])%list
    else parts in
  let parts :=
    if (0 <? hours time_data)%Z
    then (parts ++ [(str_of_int (hours time_data) ++ "h")%string])%list
    else parts in
  let parts :=
    if (0 <? minutes time_data)%Z
    then (parts ++ [(str_of_int (minutes time_data) ++ "m")%string])%list
    else parts in
  let parts :=
    if (0 <? seconds time_data)%Z
    then (parts ++ [(str_of_int (seconds time_data) ++ "s")%string])%list
    else parts in
  parts.

Definition format_time_remaining (now deadline : Z) : string :=
  let time_data := calculate_time_remaining now deadline in
  if expired time_data then "Expired"
  else
    let parts := time_parts time_data in
    match parts with
    | [] => "0s"
    | _ => join " " parts
    end.

End UtilsDisplay.

(* ===================================================================== *)
(** * shared/utils.py: message content                                    *)
(* ===================================================================== *)

Module UtilsContent.

(** [.value] of the two enumerations the escrow content quotes. *)
Definition EscrowState_value (s : Models.EscrowState) : Z :=
  match s with
  | Models.AWAITING_DEPOSIT => 0
  | Models.AWAITING_FULFILLMENT => 1
  | Models.DISPUTE_RAISED => 2
  | Models.COMPLETED => 3
  | Models.CANCELED => 4
  end.

Definition TradeType_value (t : Models.TradeType) : string :=
  match t with
  | Models.CRYPTO => "crypto"
  | Models.FIAT_P2P => "fiat_p2p"
  | Models.CROSS_CHAIN => "cross_chain"
  end.

(** An optional string or integer as a value: [None] stays [None]. *)
Definition opt_str (o : option string) : value := from_option VStr VNone o.
Definition opt_int (o : option Z) : value := from_option VInt VNone o.

Definition create_text_content (text : string) : gmap string value :=
  {[ "type" := VStr "text"; "text" := VStr text ]}.

Definition create_metadata_content (metadata : gmap string value)
    : gmap string value :=
  {[ "type" := VStr "metadata"; "metadata" := VDict metadata ]}.

Definition create_escrow_content (escrow_data : Models.EscrowData)
    : gmap string value :=
  {[ "type" := VStr "escrow_data";
     "escrow_data" :=
       VDict {[ "escrow_id" := VStr (Models.escrow_id escrow_data);
                "contract_address" := opt_str (Models.contract_address escrow_data);
                "status" := VInt (EscrowState_value (Models.status escrow_data));
                "trade_type" := VStr (TradeType_value (Models.trade_type escrow_data));
                "buyer_address" := VStr (Models.buyer_address escrow_data);
                "seller_address" := VStr (Models.seller_address escrow_data);
                "arbiter_address" := VStr (Models.arbiter_address escrow_data);
                "created_at" := VInt (Models.created_at escrow_data);
                "updated_at" := VInt (Models.updated_at escrow_data) ]} ]}.

Definition create_dispute_content (dispute_record : Disputes.DisputeRecord)
    : gmap string value :=
  {[ "type" := VStr "dispute_data";
     "dispute_data" :=
       VDict {[ "dispute_id" := VStr (Disputes.dispute_id dispute_record);
                "escrow_id" := VStr (Disputes.escrow_id dispute_record);
                "disputing_party" := VStr (Disputes.disputing_party dispute_record);
                "reason" := VStr (Disputes.reason dispute_record);
                "status" := VStr (Disputes.status dispute_record);
                "arbiter_address" := VStr (Disputes.arbiter_address dispute_record);
                "created_at" := VInt (Disputes.created_at dispute_record);
                "resolved_at" := opt_int (Disputes.resolved_at dispute_record);
                "decision" := opt_str (Disputes.decision dispute_record);
                "arbiter_reasoning" :=
                  opt_str (Disputes.arbiter_reasoning dispute_record) ]} ]}.

(** [item.get("type") == tag]: only a string equal to [tag] compares
    equal to it. *)
Definition type_is (item : gmap string value) (tag : string) : bool :=
  match dict_get item "type" VNone with
  | VStr t => String.eqb t tag
  | _ => false
  end.

Fixpoint extract_escrow_data (content : list (gmap string value)) : value :=
  match content with
  | [] => VNone
  | item :: rest =>
      if type_is item "escrow_data" then dict_get item "escrow_data" VNone
      else extract_escrow_data rest
  end.

Fixpoint extract_dispute_data (content : list (gmap string value)) : value :=
  match content with
  | [] => VNone
  | item :: rest =>
      if type_is item "dispute_data" then dict_get item "dispute_data" VNone
      else extract_dispute_data rest
  end.

Fixpoint extract_text_content (content : list (gmap string value))
    : list value :=
  match content with
  | [] => []
  | item :: rest =>
      if type_is item "text"
      then dict_get item "text" (VStr "") :: extract_text_content rest
      else extract_text_content rest
  end.

Fixpoint extract_metadata (content : list (gmap string value)) : value :=
  match content with
  | [] => VDict ∅
  | item :: rest =>
      if type_is item "metadata" then dict_get item "metadata" (VDict ∅)
      else extract_metadata rest
  end.

(** [details: Optional[str] = None], added to the record only when it
    is true. *)
Definition create_error_message (error : string) (details : option string)
    : gmap string value :=
  let error_data : gmap string value :=
    {[ "type" := VStr "error"; "error" := VStr error ]} in
  if truthy (opt_str details)
  then <[ "details" := opt_str details ]> error_data
  else error_data.

(** [data: Optional[Dict[str, Any]] = None], added only when it is
    true. *)
Definition create_success_message (message : string)
    (data : option (gmap string value)) : gmap string value :=
  let success_data : gmap string value :=
    {[ "type" := VStr "success"; "message" := VStr message ]} in
  if truthy (from_option VDict VNone data)
  then <[ "data" := from_option VDict VNone data ]> success_data
  else success_data.

(** [now] is [int(time.time())]. *)
Definition create_status_update (now : Z)
    (escrow_id old_status new_status reason : string) : gmap string value :=
  {[ "type" := VStr "status_update";
     "escrow_id" := VStr escrow_id;
     "old_status" := VStr old_status;
     "new_status" := VStr new_status;
     "reason" := VStr reason;
     "timestamp" := VInt now ]}.

(** The two readings of the clock are [now] and [later]. *)
Definition create_heartbeat_message (now later : Z)
    (agent_type status : string) : gmap string value :=
  {[ "type" := VStr "heartbeat";
     "agent_type" := VStr agent_type;
     "status" := VStr status;
     "timestamp" := VInt now;
     "uptime" := VInt later ]}.

End UtilsContent.

(* ===================================================================== *)
(** * Vocabulary of the statements                                        *)
(* ===================================================================== *)

Module Spec.

Import Models Utils Protocol Protocol.EscrowMessageTypes Oracle.

(** ** Envelopes *)

(** An envelope with the four fields of the wire format. *)
Definition envelope (type timestamp msg_id data : value) : gmap string value :=
  <[ "type" := type ]>
  (<[ "timestamp" := timestamp ]>
   (<[ "msg_id" := msg_id ]> {[ "data" := data ]})).

(** The type tag a constructor call asks for. *)
Definition sent_type (c : constructor_call) : string :=
  match c with
  | CreateEscrow _ => "create_escrow"
  | CreateDeposit _ _ _ => "deposit_request"
  | CreateFulfillment _ _ => "fulfillment_request"
  | CreateDispute _ _ => "dispute_raised"
  | CreateOracleVerification _ _ => "oracle_verification"
  | CreateStatusUpdate _ _ _ _ => "status_update"
  | CreateError _ _ => "error"
  | CreateSuccess _ _ => "success"
  | CreateHeartbeat _ _ => "heartbeat"
  | CreateAcknowledgement _ => "acknowledgement"
  | CreateResponse _ response_type _ => response_type
  end.

(** The payload a constructor call asks for, given the clock reading the
    heartbeat takes. *)
Definition sent_data (uptime : Z) (c : constructor_call) : value :=
  match c with
  | CreateEscrow d => VDict d
  | CreateDeposit i d h =>
      VDict (<[ "transaction_hash" := VStr h ]>
             (<[ "asset_data" := VDict d ]> {[ "escrow_id" := VStr i ]}))
  | CreateFulfillment i d =>
      VDict (<[ "fulfillment_data" := VDict d ]> {[ "escrow_id" := VStr i ]})
  | CreateDispute i d =>
      VDict (<[ "dispute_data" := VDict d ]> {[ "escrow_id" := VStr i ]})
  | CreateOracleVerification i d =>
      VDict (<[ "transaction_data" := VDict d ]> {[ "escrow_id" := VStr i ]})
  | CreateStatusUpdate i o n r =>
      VDict (<[ "reason" := VStr r ]>
             (<[ "new_status" := VStr n ]>
              (<[ "old_status" := VStr o ]> {[ "escrow_id" := VStr i ]})))
  | CreateError e details =>
      VDict (<[ "details" := match details with
                             | Some s => VStr s
                             | None => VNone
                             end ]> {[ "error" := VStr e ]})
  | CreateSuccess m data =>
      VDict (<[ "data" := match data with
                          | Some d => VDict d
                          | None => VDict ∅
                          end ]> {[ "message" := VStr m ]})
  | CreateHeartbeat t s =>
      VDict (<[ "uptime" := VInt uptime ]>
             (<[ "status" := VStr s ]> {[ "agent_type" := VStr t ]}))
  | CreateAcknowledgement i => VDict {[ "acknowledged_msg_id" := VStr i ]}
  | CreateResponse i _ d =>
      VDict (<[ "response_data" := VDict d ]> {[ "original_msg_id" := VStr i ]})
  end.

(** ** Hexadecimal literals *)

Definition is_hex_digit (c : ascii) : bool :=
  let n := code c in
  (((48 <=? n) && (n <=? 57)) || ((97 <=? n) && (n <=? 102))
   || ((65 <=? n) && (n <=? 70)))%N.

Fixpoint all_hex (s : string) : bool :=
  match s with
  | EmptyString => true
  | String c s' => is_hex_digit c && all_hex s'
  end.

(** [hex_literal n s]: [s] is the prefix [0x] followed by exactly [n]
    hexadecimal characters. *)
Definition hex_literal (n : nat) (s : string) : bool :=
  match s with
  | String "0" (String "x" digits) =>
      (String.length digits =? n)%nat && all_hex digits
  | _ => false
  end.

(** ** Fee percentages *)

Definition terms_with_fees (platform arbiter : float) (t : EscrowTerms)
    : EscrowTerms :=
  MkEscrowTerms (description t) (deadline t) (auto_release_hours t)
    (dispute_window_hours t) arbiter platform.

(** [escrow_data] with the two fee percentages of its terms replaced. *)
Definition with_fees (platform arbiter : float) (e : EscrowData) : EscrowData :=
  MkEscrowData (escrow_id e) (contract_address e) (status e) (trade_type e)
    (buyer_address e) (seller_address e) (arbiter_address e)
    (creator_agent e) (asset_a e) (asset_b e)
    (terms_with_fees platform arbiter <$> terms e)
    (created_at e) (updated_at e) (deposit_tx_hash e)
    (fulfillment_tx_hash e) (release_tx_hash e) (refund_tx_hash e)
    (dispute_id e) (dispute_reason e) (dispute_evidence e)
    (frontend_callback_url e) (frontend_session_id e) (metadata e).

(** An escrow between three well-formed addresses, due in the future of
    [1700000000], whose fees add up to 110 percent. *)
Definition overcharged_escrow : EscrowData :=
  MkEscrowData "escrow_1700000000_abcdef12" None AWAITING_DEPOSIT CRYPTO
    "0x1111111111111111111111111111111111111111"
    "0x2222222222222222222222222222222222222222"
    "0x3333333333333333333333333333333333333333"
    "buyer_agent"
    (Some (MkAsset ETH None "100" ETHEREUM (Some "ETH") 18 None))
    (Some (MkAsset ERC20 (Some "0x4444444444444444444444444444444444444444")
             "250" ETHEREUM (Some "USDC") 6 None))
    (Some (MkEscrowTerms "Sale of one item" 1800000000 None 24 50 60))
    1700000000 1700000000 None None None None None None [] None None ∅.

(** ** Failures of the external verification *)

(** The text the service answered with, inside the decoded response:
    [result['choices'][0]['message']['content']]. *)
Definition content_of (body : value) : result value :=
  choices ← getitem body (Key "choices");
  choice ← getitem choices (Index 0);
  message ← getitem choice (Key "message");
  getitem message (Key "content").

(** The external verification fails when the key is missing or empty,
    when the request, its status check or the decoding of its body
    raises, when the body has not the expected shape, or when the
    answer is not JSON. *)
Inductive oracle_failure (env : environment) (td : gmap string value) : Prop :=
  | key_missing :
      ASI_ONE_API_KEY env = None -> oracle_failure env td
  | key_empty :
      ASI_ONE_API_KEY env = Some "" -> oracle_failure env td
  | request_raises key e :
      ASI_ONE_API_KEY env = Some key ->
      requests_post env key (prompt_fields td) = Raise e ->
      oracle_failure env td
  | status_raises key response e :
      ASI_ONE_API_KEY env = Some key ->
      requests_post env key (prompt_fields td) = Ok response ->
      raise_for_status response = Raise e ->
      oracle_failure env td
  | body_raises key response e :
      ASI_ONE_API_KEY env = Some key ->
      requests_post env key (prompt_fields td) = Ok response ->
      json response = Raise e ->
      oracle_failure env td
  | shape_unexpected key response body e :
      ASI_ONE_API_KEY env = Some key ->
      requests_post env key (prompt_fields td) = Ok response ->
      json response = Ok body ->
      content_of body = Raise e ->
      oracle_failure env td
  | answer_unparsable key response body answer e :
      ASI_ONE_API_KEY env = Some key ->
      requests_post env key (prompt_fields td) = Ok response ->
      json response = Ok body ->
      content_of body = Ok answer ->
      json_loads env answer = Raise e ->
      oracle_failure env td.

(** An oracle whose key is not configured. *)
Definition unconfigured_oracle : environment :=
  MkEnvironment None
    (fun _ _ => raise RequestException "unreachable")
    (fun _ => raise JSONDecodeError "Expecting value").

(** ** Fees *)

(** The result [calculate_fees] falls back to. *)
Definition zero_fees : gmap string string :=
  {[ "total" := "0.0"; "platform_fee" := "0.0";
     "arbiter_fee" := "0.0"; "net_amount" := "0.0" ]}.

(** What [format_amount(str(y))] yields for a float [y]: [y] written by
    [str], read back by [float], and rendered with 18 fractional
    digits. *)
Definition rendered (y : float) : string :=
  match float_of_str (str_of_float y) with
  | Ok z => format_float_fixed z 18
  | Raise _ => "0.0"
  end.

(** A rendering with 18 fractional digits, read as a whole number of
    units of [10^-18]; [None] for any other string. *)
Definition units (s : string) : option Z :=
  let '(negative, body) := split_sign s in
  match parse_decimal body with
  | Some (d, e) =>
      if (e =? -18)%Z then Some (if negative then - d else d)%Z else None
  | None => None
  end.

(** The four entries are renderings, and the two fees and the net
    amount add up to the total within [tolerance] units of [10^-18]. *)
Definition fees_add_up (tolerance : Z) (fees : gmap string string) : bool :=
  match units <$> fees !! "total", units <$> fees !! "platform_fee",
        units <$> fees !! "arbiter_fee", units <$> fees !! "net_amount" with
  | Some (Some t), Some (Some p), Some (Some a), Some (Some n) =>
      (Z.abs (p + a + n - t) <=? tolerance)%Z
  | _, _, _, _ => false
  end.

End Spec.

(* ===================================================================== *)
(** * Further vocabulary                                                  *)
(* ===================================================================== *)

Module Vocabulary.

Import Models.

(** ** Validation rules *)

(** The eight messages of [validate_escrow_data], in the order of its
    checks. *)
Definition validation_messages : list string :=
  [ "Invalid buyer address"; "Invalid seller address";
    "Invalid arbiter address"; "Invalid escrow ID"; "Asset A is required";
    "Asset B is required"; "Escrow description is required";
    "Deadline must be in the future" ].

(** An asset is given when it is present with a non-empty amount. *)
Definition asset_given (a : option Asset) : Prop :=
  exists x, a = Some x /\ amount x <> "".

(** ** Message content *)

(** The four kinds of content [shared/utils.py] builds. *)
Inductive content_item : Type :=
  | TextItem (text : string)
  | MetadataItem (metadata : gmap string value)
  | EscrowItem (escrow_data : EscrowData)
  | DisputeItem (dispute_record : Disputes.DisputeRecord).

Definition encode (i : content_item) : gmap string value :=
  match i with
  | TextItem t => UtilsContent.create_text_content t
  | MetadataItem m => UtilsContent.create_metadata_content m
  | EscrowItem e => UtilsContent.create_escrow_content e
  | DisputeItem d => UtilsContent.create_dispute_content d
  end.

(** The texts of the text items, in order. *)
Fixpoint texts_of (items : list content_item) : list string :=
  match items with
  | [] => []
  | TextItem t :: rest => t :: texts_of rest
  | _ :: rest => texts_of rest
  end.

Fixpoint first_metadata (items : list content_item)
    : option (gmap string value) :=
  match items with
  | [] => None
  | MetadataItem m :: _ => Some m
  | _ :: rest => first_metadata rest
  end.

Fixpoint first_escrow (items : list content_item) : option EscrowData :=
  match items with
  | [] => None
  | EscrowItem e :: _ => Some e
  | _ :: rest => first_escrow rest
  end.

Fixpoint first_dispute (items : list content_item)
    : option Disputes.DisputeRecord :=
  match items with
  | [] => None
  | DisputeItem d :: _ => Some d
  | _ :: rest => first_dispute rest
  end.

(** ** The oracle *)

(** An oracle whose service answers with the given text, which
    [json.loads] decodes to the given value. *)
Definition answering_oracle (answer : string) (decoded : value) : Oracle.environment :=
  Oracle.MkEnvironment (Some "key")
    (fun _ _ =>
       Ok (Oracle.MkResponse (Ok tt)
             (Ok (VDict {[ "choices" :=
                   VList [ VDict {[ "message" :=
                     VDict {[ "content" := VStr answer ]} ]} ] ]}))))
    (fun _ => Ok decoded).

End Vocabulary.

(* ===================================================================== *)
(** * Theorems                                                            *)
(* ===================================================================== *)

Import Models Utils Protocol Protocol.EscrowMessageTypes.
Import Protocol.EscrowProtocolConstants Arbiter Oracle Registry Spec.

(** ** The message protocol *)

Lemma dict_contains_true (d : gmap string value) (k : string) :
  dict_contains d k = true <-> is_Some (d !! k).
Proof. unfold dict_contains. apply bool_decide_eq_true. Qed.

(** C7: [validate_message m] is [True] exactly when the four keys
    [type], [timestamp], [msg_id] and [data] are all present in [m]. *)
Theorem validate_message_iff (m : gmap string value) :
  validate_message m = true <->
  is_Some (m !! "type") /\ is_Some (m !! "timestamp")
  /\ is_Some (m !! "msg_id") /\ is_Some (m !! "data").
Proof.
  unfold validate_message, required_fields. simpl.
  rewrite !andb_true_iff, !dict_contains_true. tauto.
Qed.

Lemma parse_envelope (t ts i d : value) :
  parse_message_type (envelope t ts i d) = t
  /\ parse_message_data (envelope t ts i d) = d
  /\ envelope t ts i d !! "timestamp" = Some ts
  /\ envelope t ts i d !! "msg_id" = Some i.
Proof.
  unfold parse_message_type, parse_message_data, dict_get, envelope.
  repeat split; by simplify_map_eq.
Qed.

Lemma truthy_dict_false (d : gmap string value) :
  truthy (VDict d) = false -> d = ∅.
Proof.
  simpl. intros H. apply negb_false_iff in H.
  by apply bool_decide_eq_true in H.
Qed.

(** Every constructor builds the envelope of its tag and payload. *)
Lemma build_envelope (a : ambient) (c : constructor_call) :
  build a c =
  envelope (VStr (sent_type c)) (VStr (iso_now a)) (VStr (fresh_uuid a))
    (sent_data (epoch_now a) c).
Proof.
  destruct c as [d|i d h|i d|i d|i d|i o n r|e [s|]|m [d|]|t s|i|i t d];
    try reflexivity.
  - unfold build, create_success_message, envelope, sent_type, sent_data.
    simpl from_option. destruct (truthy (VDict d)) eqn:Ht; [reflexivity|].
    apply truthy_dict_false in Ht. by subst.
Qed.

(** C8: for every constructor call, decoding the envelope it builds
    gives back the type tag and the payload that were put in, and the
    envelope carries the timestamp and the message id it was given. *)
Theorem constructors_round_trip (a : ambient) (c : constructor_call) :
  parse_message_type (build a c) = VStr (sent_type c)
  /\ parse_message_data (build a c) = sent_data (epoch_now a) c
  /\ build a c !! "timestamp" = Some (VStr (iso_now a))
  /\ build a c !! "msg_id" = Some (VStr (fresh_uuid a)).
Proof. rewrite build_envelope. apply parse_envelope. Qed.

Lemma validate_envelope (t ts i d : value) :
  validate_message (envelope t ts i d) = true.
Proof.
  unfold validate_message, required_fields, envelope. simpl.
  rewrite !andb_true_iff, !dict_contains_true.
  repeat split; by simplify_map_eq.
Qed.

(** Refutes the membership of a literal in a list of other literals. *)
Ltac not_in_literals :=
  let H := fresh in
  simpl; intros H; repeat (destruct H as [H|H]; [discriminate H|]); exact H.

Lemma acknowledgement_not_supported :
  ~ In "acknowledgement" SUPPORTED_MESSAGE_TYPES.
Proof. unfold SUPPORTED_MESSAGE_TYPES. not_in_literals. Qed.

(** C10, as stated, fails at the response constructor: it is not the
    acknowledgement, and its tag is whatever the caller passes, here a
    string outside [SUPPORTED_MESSAGE_TYPES]. *)
Lemma response_tag_outside_catalog :
  let a := MkAmbient "2024-01-01T00:00:00+00:00" "uuid-1" 1704067200 in
  let c := CreateResponse "uuid-0" "pong" ∅ in
  (forall i, c <> CreateAcknowledgement i)
  /\ parse_message_type (build a c) = VStr "pong"
  /\ ~ In "pong" SUPPORTED_MESSAGE_TYPES.
Proof.
  cbv zeta. split; [intros i; discriminate|]. split; [reflexivity|].
  unfold SUPPORTED_MESSAGE_TYPES. not_in_literals.
Qed.

(** C10, amended: every envelope built by a constructor passes
    [validate_message]; the tag of every constructor with a fixed tag,
    the acknowledgement apart, belongs to [SUPPORTED_MESSAGE_TYPES]; the
    acknowledgement's tag does not; the response's tag is the caller's
    [response_type]. *)
Theorem constructors_validate (a : ambient) (c : constructor_call) :
  validate_message (build a c) = true
  /\ match c with
     | CreateAcknowledgement _ =>
         parse_message_type (build a c) = VStr "acknowledgement"
         /\ ~ In "acknowledgement" SUPPORTED_MESSAGE_TYPES
     | CreateResponse _ response_type _ =>
         parse_message_type (build a c) = VStr response_type
     | _ =>
         exists t, parse_message_type (build a c) = VStr t
                   /\ In t SUPPORTED_MESSAGE_TYPES
     end.
Proof.
  split; [rewrite build_envelope; apply validate_envelope|].
  destruct c;
    try (split; [reflexivity | apply acknowledgement_not_supported]);
    try reflexivity;
    (eexists; split; [reflexivity|]);
    unfold SUPPORTED_MESSAGE_TYPES; simpl; tauto.
Qed.

(** ** The arbiter *)

(** C2: when the dispute holds [n] evidence items, [analyze_dispute]
    returns an analysis whose recommendation and confidence are fixed by
    [n] alone: [REQUIRES_MORE_EVIDENCE] and 0.5 for 0 items,
    [REFUND_FUNDS] and 0.6 for 1 or 2, [RELEASE_FUNDS] and 0.8 for 3 or
    more. *)
Theorem analyze_dispute_by_count (dispute_data : gmap string value) (n : nat) :
  len (dict_get dispute_data "evidence" (VList [])) = Ok n ->
  exists analysis,
    analyze_dispute dispute_data = Ok analysis
    /\ analysis !! "recommendation" =
       Some (VStr (if (n =? 0)%nat then "REQUIRES_MORE_EVIDENCE"
                   else if (n <=? 2)%nat then "REFUND_FUNDS"
                   else "RELEASE_FUNDS"))
    /\ analysis !! "confidence" =
       Some (VFloat (if (n =? 0)%nat then 0.5%float
                     else if (n <=? 2)%nat then 0.6%float
                     else 0.8%float)).
Proof.
  intros Hlen. unfold analyze_dispute. rewrite Hlen. simpl.
  destruct n as [|[|[|n]]]; simpl;
    (eexists; split; [reflexivity|]); split; by simplify_map_eq.
Qed.

(** Outside that case: an evidence entry that has no length, such as
    [None], makes [len] and with it [analyze_dispute] raise. *)
Remark analyze_dispute_without_length :
  exists e, analyze_dispute {[ "evidence" := VNone ]} = Raise e
            /\ exn_cls e = TypeError.
Proof. eexists. split; reflexivity. Qed.

Lemma analyze_dispute_by_count_witness :
  let evidence := VList [VStr "tx receipt"; VStr "chat log"] in
  let dispute : gmap string value :=
    {[ "dispute_id" := VStr "dispute_1"; "evidence" := evidence ]} in
  len (dict_get dispute "evidence" (VList [])) = Ok 2%nat
  /\ exists analysis,
       analyze_dispute dispute = Ok analysis
       /\ analysis !! "recommendation" = Some (VStr "REFUND_FUNDS")
       /\ analysis !! "confidence" = Some (VFloat 0.6%float).
Proof.
  cbv zeta. split; [reflexivity|].
  exact (analyze_dispute_by_count
           {[ "dispute_id" := VStr "dispute_1";
              "evidence" := VList [VStr "tx receipt"; VStr "chat log"] ]}
           2%nat eq_refl).
Defined.

(** ** Address and transaction-hash validation *)

(** Case analysis on the eight bits of a character. *)
Ltac ascii_cases c := destruct c as [[] [] [] [] [] [] [] []].

Lemma hex_digit_facts (c : ascii) :
  is_hex_digit c = true ->
  to_ascii_char c = c /\ is_space c = false
  /\ Ascii.eqb c "_" = false
  /\ split_sign (String c EmptyString) = (false, String c EmptyString)
  /\ Ascii.eqb c "x" || Ascii.eqb c "X" = false
  /\ is_digit_in 16 c = true.
Proof.
  ascii_cases c; vm_compute; intros H;
    try discriminate H; repeat split.
Qed.

Lemma split_sign_hex (c : ascii) (s : string) :
  is_hex_digit c = true -> split_sign (String c s) = (false, String c s).
Proof.
  ascii_cases c; vm_compute; intros H;
    try discriminate H; reflexivity.
Qed.

Lemma transform_hex (s : string) :
  all_hex s = true -> transform_decimal_and_space s = s.
Proof.
  induction s as [|c s IH]; simpl; [reflexivity|].
  intros [Hc Hs]%andb_true_iff.
  destruct (hex_digit_facts c Hc) as (-> & _). by rewrite IH.
Qed.

Lemma strip_base16_prefix_hex (c : ascii) (s : string) :
  all_hex (String c s) = true ->
  strip_base16_prefix (String c s) = String c s.
Proof.
  simpl. intros [Hc Hs]%andb_true_iff.
  destruct s as [|x s].
  - ascii_cases c; reflexivity.
  - simpl in Hs. apply andb_true_iff in Hs as [Hx _].
    destruct (hex_digit_facts x Hx) as (_ & _ & _ & _ & Hxx & _).
    ascii_cases c; simpl; try reflexivity.
    by rewrite Hxx.
Qed.

Lemma scan_digits_hex (s : string) :
  all_hex s = true ->
  forall acc n, exists v,
    scan_digits 16 s false acc n = Some (v, (n + String.length s)%nat, EmptyString).
Proof.
  induction s as [|c s IH]; simpl; intros H acc n.
  - exists acc. by rewrite Nat.add_0_r.
  - apply andb_true_iff in H as [Hc Hs].
    destruct (hex_digit_facts c Hc) as (_ & _ & -> & _ & _ & Hd).
    unfold is_digit_in in Hd. destruct (digit_value c) as [d|]; [|discriminate].
    rewrite Hd. destruct (IH Hs (acc * 16 + d)%N (S n)) as [v Hv].
    exists v. rewrite Hv. do 3 f_equal. lia.
Qed.

(** [int(s, 16)] succeeds on every non-empty run of hexadecimal
    characters. *)
Lemma int_base16_hex (s : string) :
  all_hex s = true -> s <> EmptyString -> exists z, int_base16 s = Ok z.
Proof.
  intros H Hne. destruct s as [|c s]; [done|].
  unfold int_base16. rewrite (transform_hex _ H).
  pose proof H as [Hc Hs]%andb_true_iff.
  destruct (hex_digit_facts c Hc) as (_ & Hsp & Hus & _).
  simpl lstrip. rewrite Hsp, (split_sign_hex c s Hc).
  rewrite (strip_base16_prefix_hex c s H).
  simpl starts_with_underscore. rewrite Hus.
  destruct (scan_digits_hex _ H 0%N 0%nat) as [v ->].
  simpl. eauto.
Qed.

Lemma hex_literal_inv (n : nat) (s : string) :
  hex_literal n s = true ->
  exists digits, s = String "0" (String "x" digits)
                 /\ String.length digits = n /\ all_hex digits = true.
Proof.
  unfold hex_literal. destruct s as [|c0 [|c1 digits]]; try discriminate.
  - ascii_cases c0; discriminate.
  - ascii_cases c0; try discriminate.
    ascii_cases c1; try discriminate.
    intros [Hl Hh]%andb_true_iff. apply Nat.eqb_eq in Hl. eauto.
Qed.

Lemma prefix_empty (s : string) : String.prefix EmptyString s = true.
Proof. destruct s; reflexivity. Qed.

(** Every well-formed address is accepted. *)
Lemma validate_address_complete (s : string) :
  hex_literal 40 s = true -> validate_address s = Ok true.
Proof.
  intros (digits & -> & Hl & Hh)%hex_literal_inv.
  unfold validate_address, startswith. simpl.
  rewrite Hl, prefix_empty. simpl.
  destruct (int_base16_hex digits Hh) as [z ->]; [|reflexivity].
  intros ->. discriminate Hl.
Qed.

Lemma validate_transaction_hash_complete (s : string) :
  hex_literal 64 s = true -> validate_transaction_hash s = Ok true.
Proof.
  intros (digits & -> & Hl & Hh)%hex_literal_inv.
  unfold validate_transaction_hash, startswith. simpl.
  rewrite Hl, prefix_empty. simpl.
  destruct (int_base16_hex digits Hh) as [z ->]; [|reflexivity].
  intros ->. discriminate Hl.
Qed.

(** C3: [validate_address] returns [True] on a string of 42 characters
    that starts with [0x] and goes on with a sign and 39 digits, which
    is not [0x] followed by 40 hexadecimal characters; so does
    [validate_transaction_hash] on the like string of 66 characters. *)
Theorem validate_address_accepts_signed_literal :
  let address := "0x+000000000000000000000000000000000000000" in
  let tx_hash :=
    "0x+000000000000000000000000000000000000000000000000000000000000000" in
  validate_address address = Ok true
  /\ hex_literal 40 address = false
  /\ validate_transaction_hash tx_hash = Ok true
  /\ hex_literal 64 tx_hash = false.
Proof. cbv zeta. repeat split; vm_compute; reflexivity. Qed.

(** ** Validation of escrow data *)

(** C6, as stated, fails: an escrow whose platform and arbiter fees add
    up to 110 percent passes [validate_escrow_data] with no error. *)
Lemma validate_escrow_data_accepts_overcharge :
  (platform_fee_percentage <$> terms overcharged_escrow) = Some 60%float
  /\ (arbiter_fee_percentage <$> terms overcharged_escrow) = Some 50%float
  /\ (100 <=? 60 + 50)%float = true
  /\ validate_escrow_data 1700000000 overcharged_escrow = Ok [].
Proof. repeat split; vm_compute; reflexivity. Qed.

(** C6, amended: [validate_escrow_data] does not read the fee
    percentages; the list of errors it returns stays the same when the
    two percentages are replaced by any others. *)
Theorem validate_escrow_data_ignores_fees (now : Z) (e : EscrowData)
    (platform arbiter : float) :
  validate_escrow_data now (with_fees platform arbiter e)
  = validate_escrow_data now e.
Proof.
  unfold validate_escrow_data, with_fees. simpl.
  destruct (terms e) as [t|]; reflexivity.
Qed.

(** ** Amounts and fees *)

Lemma float_of_str_raises (s : string) (e : exn) :
  float_of_str s = Raise e -> exn_cls e = ValueError.
Proof.
  unfold float_of_str.
  destruct (strip_underscores _ _) as [t|]; [|by intros [= <-]].
  destruct (split_sign _) as [negative body].
  destruct (_ || _); [discriminate|].
  destruct (String.eqb _ _); [discriminate|].
  destruct (parse_decimal body) as [[d x]|]; [discriminate|].
  by intros [= <-].
Qed.

Lemma format_spec_f_raises (x : float) (precision : Z) (e : exn) :
  format_spec_f x precision = Raise e -> exn_cls e = ValueError.
Proof.
  unfold format_spec_f.
  destruct (_ <? _)%Z; [by intros [= <-]|].
  destruct (_ <? _)%Z; [by intros [= <-]|discriminate].
Qed.

Lemma try_except_ValueError {A : Type} (e : exn) (cs : list exn_class)
    (r : result A) :
  exn_cls e = ValueError ->
  try_except (Raise e) (ValueError :: cs) (fun _ => r) = r.
Proof. intros H. unfold try_except. simpl. by rewrite H. Qed.

Lemma format_amount_unparsable (amount : string) (decimals : Z) (e : exn) :
  float_of_str amount = Raise e -> format_amount amount decimals = Ok "0.0".
Proof.
  intros H. unfold format_amount. rewrite H. unfold mbind, result_bind.
  apply try_except_ValueError. by eapply float_of_str_raises.
Qed.

Lemma format_amount_parsed (amount : string) (decimals : Z) (x : float) :
  float_of_str amount = Ok x ->
  format_amount amount decimals =
  if ((decimals <? 0) || (2147483647 <? decimals))%Z then Ok "0.0"
  else Ok (format_float_fixed x decimals).
Proof.
  intros H. unfold format_amount. rewrite H. simpl. unfold format_spec_f.
  destruct (decimals <? 0)%Z; [reflexivity|].
  destruct (2147483647 <? decimals)%Z; reflexivity.
Qed.

Lemma format_amount_total (amount : string) (decimals : Z) :
  exists s, format_amount amount decimals = Ok s.
Proof.
  destruct (float_of_str amount) as [x|e] eqn:H.
  - rewrite (format_amount_parsed _ _ _ H). destruct (_ || _); eauto.
  - rewrite (format_amount_unparsable _ _ _ H). eauto.
Qed.

Lemma format_amount_rendered (y : float) :
  format_amount (str_of_float y) 18 = Ok (rendered y).
Proof.
  unfold rendered. destruct (float_of_str (str_of_float y)) as [z|e] eqn:H.
  - by rewrite (format_amount_parsed _ _ _ H).
  - by rewrite (format_amount_unparsable _ _ _ H).
Qed.

Lemma calculate_fees_unparsable (amount : string) (p a : float) (e : exn) :
  float_of_str amount = Raise e -> calculate_fees amount p a = Ok zero_fees.
Proof.
  intros H. unfold calculate_fees. rewrite H. unfold mbind, result_bind.
  rewrite try_except_ValueError by (by eapply float_of_str_raises).
  reflexivity.
Qed.

Lemma calculate_fees_parsed (amount : string) (p a : float) (x : float) :
  float_of_str amount = Ok x ->
  calculate_fees amount p a =
  Ok {[ "total" := rendered x;
        "platform_fee" := rendered (x * (p / 100));
        "arbiter_fee" := rendered (x * (a / 100));
        "net_amount" := rendered (x - x * (p / 100) - x * (a / 100)) ]}.
Proof.
  intros H. unfold calculate_fees. rewrite H. simpl.
  rewrite !format_amount_rendered. reflexivity.
Qed.

(** C5: on every string, [format_amount] (with its default of 18
    decimals) and [calculate_fees] return a value; on a string that
    [float] does not read they return ["0.0"], whatever the decimals,
    and the all-zero record. *)
Theorem amounts_never_raise (amount : string) :
  (exists s, format_amount amount 18 = Ok s)
  /\ (forall p a, exists fees, calculate_fees amount p a = Ok fees)
  /\ ((exists e, float_of_str amount = Raise e) ->
      (forall decimals, format_amount amount decimals = Ok "0.0")
      /\ (forall p a, calculate_fees amount p a = Ok zero_fees)).
Proof.
  split; [apply format_amount_total|]. split.
  - intros p a. destruct (float_of_str amount) as [x|e] eqn:H.
    + rewrite (calculate_fees_parsed _ _ _ _ H). eauto.
    + rewrite (calculate_fees_unparsable _ _ _ _ H). eauto.
  - intros [e H]. split; intros.
    + by eapply format_amount_unparsable.
    + by eapply calculate_fees_unparsable.
Qed.

Lemma amounts_never_raise_witness :
  (exists e, float_of_str "abc" = Raise e)
  /\ format_amount "abc" 18 = Ok "0.0"
  /\ calculate_fees "abc" 0.5 1 = Ok zero_fees.
Proof.
  assert (exists e, float_of_str "abc" = Raise e) as H.
  { eexists. vm_compute. reflexivity. }
  split; [exact H|].
  destruct (proj2 (proj2 (amounts_never_raise "abc")) H) as [Hf Hc].
  split; [apply Hf | apply Hc].
Defined.

(** C4, as stated, fails.  For the amount ["1234567.89"] with fees 0.5
    and 1.0 the two fees and the net amount miss the total by more than
    ten million units of the last rendered digit; for ["1e999"], which
    [float] reads as a non-negative value, the net amount is ["nan"]. *)
Lemma calculate_fees_do_not_add_up :
  let fees : gmap string string :=
    {[ "total" := "1234567.889999999897554517";
       "platform_fee" := "6172.839449999999487773";
       "arbiter_fee" := "12345.678899999998975545";
       "net_amount" := "1216049.371649999869987369" ]} in
  let overflowed : gmap string string :=
    {[ "total" := "inf"; "platform_fee" := "inf";
       "arbiter_fee" := "inf"; "net_amount" := "nan" ]} in
  (exists x, float_of_str "1234567.89" = Ok x /\ (0 <=? x)%float = true)
  /\ calculate_fees "1234567.89" 0.5 1 = Ok fees
  /\ fees_add_up 10000000 fees = false
  /\ (exists x, float_of_str "1e999" = Ok x /\ (0 <=? x)%float = true)
  /\ calculate_fees "1e999" 0.5 1 = Ok overflowed
  /\ (forall tolerance, fees_add_up tolerance overflowed = false).
Proof.
  cbv zeta. split; [eexists; split; vm_compute; reflexivity|].
  split; [vm_compute; reflexivity|]. split; [vm_compute; reflexivity|].
  split; [eexists; split; vm_compute; reflexivity|].
  split; [vm_compute; reflexivity|]. intros tolerance. reflexivity.
Qed.

(** C4, amended: for every amount that [float] reads as [x],
    [calculate_fees] returns the renderings of [x], [x * (p / 100)],
    [x * (a / 100)] and [x - platform_fee - arbiter_fee], all computed
    in binary64 arithmetic; for the amount ["100"] with fees 0.5 and 1.0
    these are 100, 0.5, 1 and 98.5 with 18 fractional digits, and they
    add up exactly. *)
Theorem calculate_fees_binary64 :
  (forall (amount : string) (p a x : float),
     float_of_str amount = Ok x ->
     calculate_fees amount p a =
     Ok {[ "total" := rendered x;
           "platform_fee" := rendered (x * (p / 100));
           "arbiter_fee" := rendered (x * (a / 100));
           "net_amount" := rendered (x - x * (p / 100) - x * (a / 100)) ]})
  /\ (let fees : gmap string string :=
        {[ "total" := "100.000000000000000000";
           "platform_fee" := "0.500000000000000000";
           "arbiter_fee" := "1.000000000000000000";
           "net_amount" := "98.500000000000000000" ]} in
      calculate_fees "100" 0.5 1 = Ok fees /\ fees_add_up 0 fees = true).
Proof.
  split; [apply calculate_fees_parsed|].
  cbv zeta. split; vm_compute; reflexivity.
Qed.

Lemma calculate_fees_binary64_witness :
  float_of_str "100" = Ok 100%float
  /\ calculate_fees "100" 0.5 1 =
     Ok {[ "total" := rendered 100;
           "platform_fee" := rendered (100 * (0.5 / 100));
           "arbiter_fee" := rendered (100 * (1 / 100));
           "net_amount" := rendered (100 - 100 * (0.5 / 100) - 100 * (1 / 100)) ]}.
Proof.
  assert (float_of_str "100" = Ok 100%float) as H by (vm_compute; reflexivity).
  split; [exact H|].
  exact (proj1 calculate_fees_binary64 "100" 0.5%float 1%float 100%float H).
Defined.

(** ** The oracle *)

Lemma not_verified_spec (msg : string) :
  exists d, not_verified msg = VDict d
            /\ d !! "verified" = Some (VBool false)
            /\ d !! "confidence" = Some (VFloat 0).
Proof. eexists. split; [reflexivity|]. split; by simplify_map_eq. Qed.

Lemma try_except_Exception {A : Type} (body : result A) (h : exn -> result A) :
  try_except body [Exception] h =
  match body with
  | Ok a => Ok a
  | Raise e => h e
  end.
Proof. destruct body as [a|e]; reflexivity. Qed.

Lemma verify_not_configured (env : environment) (td : gmap string value) :
  ASI_ONE_API_KEY env = None \/ ASI_ONE_API_KEY env = Some "" ->
  verify_transaction_with_ai env td = Ok (not_verified "AI service not configured").
Proof. unfold verify_transaction_with_ai. by intros [-> | ->]. Qed.

(** With a key, the call returns what the guarded block returns, or the
    failure record when the block raises. *)
Lemma verify_configured (env : environment) (td : gmap string value) (key : string) :
  ASI_ONE_API_KEY env = Some key -> key <> "" ->
  verify_transaction_with_ai env td =
  match
    response ← requests_post env key (prompt_fields td);
    _ ← raise_for_status response;
    body ← json response;
    answer ← content_of body;
    try_except (json_loads env answer) [JSONDecodeError]
      (fun _ => Ok (not_verified "Failed to parse AI response"))
  with
  | Ok v => Ok v
  | Raise e => Ok (not_verified (exn_msg e))
  end.
Proof.
  intros Hkey Hne. unfold verify_transaction_with_ai. rewrite Hkey.
  assert (truthy (VStr key) = true) as ->.
  { simpl. destruct key; [done | reflexivity]. }
  simpl negb. cbv iota. rewrite try_except_Exception.
  destruct (requests_post env key (prompt_fields td)) as [response|e];
    [|reflexivity].
  simpl. destruct (raise_for_status response) as [[]|e]; [|reflexivity].
  simpl. destruct (json response) as [body|e]; [|reflexivity].
  simpl. unfold content_of.
  destruct (getitem body (Key "choices")) as [choices|e]; [|reflexivity].
  simpl. destruct (getitem choices (Index 0)) as [choice|e]; [|reflexivity].
  simpl. destruct (getitem choice (Key "message")) as [message|e]; [|reflexivity].
  simpl. destruct (getitem message (Key "content")) as [answer|e]; [|reflexivity].
  simpl. destruct (json_loads env answer) as [v|e]; reflexivity.
Qed.

Lemma verify_total (env : environment) (td : gmap string value) :
  exists v, verify_transaction_with_ai env td = Ok v.
Proof.
  destruct (ASI_ONE_API_KEY env) as [key|] eqn:Hkey.
  - destruct (String.eqb_spec key "") as [->|Hne].
    + rewrite verify_not_configured by auto. eauto.
    + rewrite (verify_configured env td key Hkey Hne).
      match goal with |- context [match ?b with _ => _ end] => destruct b end;
        eauto.
  - rewrite verify_not_configured by auto. eauto.
Qed.

Lemma verify_fail_safe (env : environment) (td : gmap string value) :
  oracle_failure env td ->
  exists msg, verify_transaction_with_ai env td = Ok (not_verified msg).
Proof.
  intros Hfail.
  assert (forall key, ASI_ONE_API_KEY env = Some key -> key = "" ->
          exists msg, verify_transaction_with_ai env td = Ok (not_verified msg))
    as Hempty.
  { intros key Hkey ->. rewrite verify_not_configured by auto. eauto. }
  destruct Hfail as [Hkey|Hkey|key e Hkey Hpost|key r e Hkey Hpost Hst
                    |key r e Hkey Hpost Hjs|key r body e Hkey Hpost Hjs Hc
                    |key r body answer e Hkey Hpost Hjs Hc Hl];
    try (rewrite verify_not_configured by auto; eauto; fail);
    (destruct (String.eqb_spec key "") as [Heq|Hne]; [by eapply Hempty|]);
    rewrite (verify_configured env td key Hkey Hne), Hpost; simpl.
  - eauto.
  - rewrite Hst. simpl. eauto.
  - destruct (raise_for_status r) as [[]|e']; simpl; [|eauto].
    rewrite Hjs. simpl. eauto.
  - destruct (raise_for_status r) as [[]|e']; simpl; [|eauto].
    rewrite Hjs. simpl. rewrite Hc. simpl. eauto.
  - destruct (raise_for_status r) as [[]|e']; simpl; [|eauto].
    rewrite Hjs. simpl. rewrite Hc. simpl. rewrite Hl.
    unfold try_except. destruct (existsb _ _); eauto.
Qed.

(** C9: [verify_transaction_with_ai] always returns a value, and when
    the external verification fails (no key, a raising request, status
    check or body, a body of another shape, or an answer that is not
    JSON) the value is a record with [verified = False] and
    [confidence = 0.0]. *)
Theorem verify_transaction_fail_safe (env : environment)
    (transaction_data : gmap string value) :
  (exists v, verify_transaction_with_ai env transaction_data = Ok v)
  /\ (oracle_failure env transaction_data ->
      exists d,
        verify_transaction_with_ai env transaction_data = Ok (VDict d)
        /\ d !! "verified" = Some (VBool false)
        /\ d !! "confidence" = Some (VFloat 0)).
Proof.
  split; [apply verify_total|].
  intros [msg ->]%verify_fail_safe.
  destruct (not_verified_spec msg) as (d & -> & Hv & Hc). eauto.
Qed.

Lemma verify_transaction_fail_safe_witness :
  oracle_failure unconfigured_oracle ∅
  /\ exists d,
       verify_transaction_with_ai unconfigured_oracle ∅ = Ok (VDict d)
       /\ d !! "verified" = Some (VBool false)
       /\ d !! "confidence" = Some (VFloat 0).
Proof.
  split.
  - apply key_missing. reflexivity.
  - apply (proj2 (verify_transaction_fail_safe unconfigured_oracle ∅)).
    apply key_missing. reflexivity.
Defined.

(** ** The escrow registry *)

(** [legal] decides whether the graph has an edge. *)
Lemma legal_transition (s : EscrowState) (c : command) :
  legal s c = true <-> exists s', transition s c s'.
Proof.
  split.
  - destruct s, c as [asset proof| |reason evidence|[]|]; simpl;
      try discriminate; intros _; eexists; constructor.
  - intros [s' H]. destruct H; reflexivity.
Qed.

(** A command that is applied moves the escrow along an edge of the
    graph and leaves the other escrows alone. *)
Lemma execute_applied (reg reg' : gmap string escrow) (id : string) (c : command) :
  execute reg id c = (reg', Applied) ->
  exists e e',
    reg !! id = Some e /\ reg' = <[ id := e' ]> reg
    /\ transition (escrow_status e) c (escrow_status e').
Proof.
  destruct c as [asset proof| |reason evidence|d|]; simpl;
    unfold deposit, confirmFulfillment, raiseDispute, resolveDispute, cancel;
    destruct (reg !! id) as [e|] eqn:He; try discriminate;
    destruct (escrow_status e) eqn:Hs; try discriminate.
  - destruct (_ && _); [discriminate|].
    intros [= <-]. do 2 eexists. repeat split. rewrite Hs. constructor.
  - intros [= <-]. do 2 eexists. repeat split. rewrite Hs. constructor.
  - intros [= <-]. do 2 eexists. repeat split. rewrite Hs. constructor.
  - intros [= <-]. do 2 eexists. repeat split. rewrite Hs. constructor.
  - destruct (escrow_dispute e) as [dr|]; [|discriminate].
    destruct (dispute_state dr); try discriminate;
      intros [= <-]; do 2 eexists; repeat split; rewrite Hs; destruct d; constructor.
  - intros [= <-]. do 2 eexists. repeat split. rewrite Hs. constructor.
Qed.

(** C1: a command that has no edge out of the escrow's current status
    is answered with [InvalidStateError], and the registry, hence the
    status of the escrow, is left as it was. *)
Theorem out_of_order_command_rejected (reg : gmap string escrow) (id : string)
    (e : escrow) (c : command) :
  reg !! id = Some e ->
  legal (escrow_status e) c = false ->
  execute reg id c = (reg, Rejected InvalidStateError)
  /\ escrow_status <$> (execute reg id c).1 !! id = Some (escrow_status e).
Proof.
  intros He Hl.
  assert (execute reg id c = (reg, Rejected InvalidStateError)) as ->.
  { destruct c as [asset proof| |reason evidence|d|]; simpl;
      unfold deposit, confirmFulfillment, raiseDispute, resolveDispute, cancel;
      rewrite He; destruct (escrow_status e); try discriminate Hl;
      try reflexivity.
    all: destruct (escrow_dispute e); reflexivity. }
  split; [reflexivity|]. simpl. by rewrite He.
Qed.

Lemma out_of_order_command_rejected_witness :
  let e := MkEscrow AWAITING_DEPOSIT CRYPTO None false None in
  let reg : gmap string escrow := {[ "escrow_1" := e ]} in
  reg !! "escrow_1" = Some e
  /\ legal (escrow_status e) ConfirmFulfillment = false
  /\ execute reg "escrow_1" ConfirmFulfillment = (reg, Rejected InvalidStateError)
  /\ escrow_status <$> (execute reg "escrow_1" ConfirmFulfillment).1 !! "escrow_1"
     = Some AWAITING_DEPOSIT.
Proof.
  cbv zeta. split; [reflexivity|]. split; [reflexivity|].
  exact (out_of_order_command_rejected
           {[ "escrow_1" := MkEscrow AWAITING_DEPOSIT CRYPTO None false None ]}
           "escrow_1" (MkEscrow AWAITING_DEPOSIT CRYPTO None false None)
           ConfirmFulfillment eq_refl eq_refl).
Defined.

(* ===================================================================== *)
(** * Further properties of the code                                       *)
(* ===================================================================== *)

Import PySeq UtilsDisplay Vocabulary.

(** ** More on validation *)

Lemma int_base16_raises (s : string) (e : exn) :
  int_base16 s = Raise e -> exn_cls e = ValueError.
Proof.
  unfold int_base16.
  destruct (split_sign _) as [negative t].
  destruct (starts_with_underscore _); [by intros [= <-]|].
  destruct (scan_digits _ _ _ _ _) as [[[v digits] rest]|]; [|by intros [= <-]].
  destruct (_ =? _)%nat; [by intros [= <-]|].
  destruct (lstrip rest); [discriminate | by intros [= <-]].
Qed.

(** The shared body of the two validators: the prefix, the length and
    the call of [int]. *)
Lemma hex_check_total (s : string) :
  exists b,
    try_except (_ ← int_base16 s; Ok true) [ValueError] (fun _ => Ok false)
    = Ok b
    /\ (b = true <-> exists v, int_base16 s = Ok v).
Proof.
  destruct (int_base16 s) as [v|e] eqn:H.
  - exists true. split; [reflexivity|]. split; eauto.
  - exists false. unfold mbind, result_bind.
    rewrite try_except_ValueError by (by eapply int_base16_raises).
    split; [reflexivity|]. split; [discriminate|]. by intros [v [=]].
Qed.

Lemma validate_address_cases (s : string) :
  (validate_address s = Ok true
   /\ String.length s = 42%nat /\ startswith s "0x" = true
   /\ exists v, int_base16 (slice_from 2 s) = Ok v)
  \/ validate_address s = Ok false.
Proof.
  unfold validate_address. destruct (empty_str s); [by right|].
  destruct (startswith s "0x") eqn:Hp; [|by right].
  destruct (String.length s =? 42)%nat eqn:Hl; [|by right].
  apply Nat.eqb_eq in Hl. simpl andb. cbv iota.
  destruct (hex_check_total (slice_from 2 s)) as ([|] & -> & Hv).
  - left. repeat split; try done. by apply Hv.
  - by right.
Qed.

Lemma validate_transaction_hash_cases (s : string) :
  (validate_transaction_hash s = Ok true
   /\ String.length s = 66%nat /\ startswith s "0x" = true
   /\ exists v, int_base16 (slice_from 2 s) = Ok v)
  \/ validate_transaction_hash s = Ok false.
Proof.
  unfold validate_transaction_hash. destruct (empty_str s); [by right|].
  destruct (startswith s "0x") eqn:Hp; [|by right].
  destruct (String.length s =? 66)%nat eqn:Hl; [|by right].
  apply Nat.eqb_eq in Hl. simpl andb. cbv iota.
  destruct (hex_check_total (slice_from 2 s)) as ([|] & -> & Hv).
  - left. repeat split; try done. by apply Hv.
  - by right.
Qed.

(** X1: [validate_address] never raises, and whatever it accepts has 42
    characters and starts with [0x]. *)
Theorem validate_address_never_raises (s : string) :
  (exists b, validate_address s = Ok b)
  /\ (validate_address s = Ok true ->
      String.length s = 42%nat /\ startswith s "0x" = true).
Proof.
  destruct (validate_address_cases s) as [(H & Hl & Hp & _)|H]; rewrite H.
  - split; eauto.
  - split; [eauto | discriminate].
Qed.

Lemma validate_address_never_raises_witness :
  let s := "0x1111111111111111111111111111111111111111" in
  validate_address s = Ok true
  /\ String.length s = 42%nat /\ startswith s "0x" = true.
Proof.
  cbv zeta.
  assert (validate_address "0x1111111111111111111111111111111111111111"
          = Ok true) as H by (vm_compute; reflexivity).
  split; [exact H|].
  exact (proj2 (validate_address_never_raises
                  "0x1111111111111111111111111111111111111111") H).
Defined.

(** X3: a string that [validate_address] accepts is turned down by
    [validate_transaction_hash]: no string passes for both. *)
Theorem address_is_not_a_transaction_hash (s : string) :
  validate_address s = Ok true -> validate_transaction_hash s = Ok false.
Proof.
  intros H.
  destruct (validate_address_cases s) as [(_ & Hl & _)|H']; [|congruence].
  destruct (validate_transaction_hash_cases s) as [(_ & Hl' & _)|H']; [|done].
  congruence.
Qed.

Lemma address_is_not_a_transaction_hash_witness :
  let s := "0x1111111111111111111111111111111111111111" in
  validate_address s = Ok true /\ validate_transaction_hash s = Ok false.
Proof.
  cbv zeta.
  assert (validate_address "0x1111111111111111111111111111111111111111"
          = Ok true) as H by (vm_compute; reflexivity).
  split; [exact H|].
  exact (address_is_not_a_transaction_hash
           "0x1111111111111111111111111111111111111111" H).
Defined.

Lemma digit_value_bound (c : ascii) (d : N) :
  digit_value c = Some d -> (d <? 16)%N = true -> (d <= 15)%N.
Proof. intros _ H%N.ltb_lt. lia. Qed.

Lemma scan_digits_bound (s : string) :
  forall prev acc n v n' rest,
    scan_digits 16 s prev acc n = Some (v, n', rest) ->
    (v + 1 <= (acc + 1) * 16 ^ N.of_nat (String.length s))%N.
Proof.
  induction s as [|c s IH]; intros prev acc n v n' rest; simpl scan_digits.
  - destruct prev; [discriminate|]. intros [= <- _ _]. simpl. lia.
  - assert (16 ^ N.of_nat (String.length (String c s))
            = 16 * 16 ^ N.of_nat (String.length s))%N as ->.
    { simpl String.length. rewrite Nat2N.inj_succ, N.pow_succ_r'. reflexivity. }
    assert (1 <= 16 ^ N.of_nat (String.length s))%N as Hpos.
    { assert (16 ^ N.of_nat (String.length s) <> 0)%N
        by (by apply N.pow_nonzero).
      lia. }
    assert (forall x, (if prev then None else Some (acc, n, x))
                      = Some (v, n', rest) ->
            (v + 1 <= (acc + 1) * (16 * 16 ^ N.of_nat (String.length s)))%N)
      as Hstop.
    { destruct prev; [discriminate|]. intros x [= <- _ _]. nia. }
    destruct (Ascii.eqb c "_").
    + destruct prev; [discriminate|]. intros H%IH. nia.
    + destruct (digit_value c) as [d|] eqn:Hd; [|apply Hstop].
      destruct (d <? 16)%N eqn:Hlt; [|apply Hstop].
      intros H%IH. apply N.ltb_lt in Hlt. nia.
Qed.

Lemma transform_length (s : string) :
  String.length (transform_decimal_and_space s) = String.length s.
Proof. induction s as [|c s IH]; simpl; congruence. Qed.

Lemma lstrip_length (s : string) :
  (String.length (lstrip s) <= String.length s)%nat.
Proof.
  induction s as [|c s IH]; simpl; [lia|].
  destruct (is_space c); simpl; lia.
Qed.

Lemma split_sign_length (s : string) :
  (String.length (split_sign s).2 <= String.length s)%nat.
Proof.
  destruct s as [|c s]; [simpl; lia|].
  ascii_cases c; simpl; lia.
Qed.

Lemma strip_base16_prefix_length (s : string) :
  (String.length (strip_base16_prefix s) <= String.length s)%nat.
Proof.
  destruct s as [|c [|x s]]; try (simpl; lia).
  - ascii_cases c; simpl; lia.
  - assert (forall t : string,
              (String.length (if Ascii.eqb x "x" || Ascii.eqb x "X"
                              then match s with
                                   | String "_" s'' => s''
                                   | _ => s
                                   end
                              else t)
               <= Nat.max (String.length s) (String.length t))%nat) as H.
    { intros t. destruct (_ || _); [|lia].
      destruct s as [|u s]; [simpl; lia|]. ascii_cases u; simpl; lia. }
    ascii_cases c; simpl; try lia.
    specialize (H (String "0" (String x s))). simpl in H. lia.
Qed.

(** [int(s, 16)] names a number below [16 ^ len(s)] in absolute
    value. *)
Lemma int_base16_bound (s : string) (v : Z) :
  int_base16 s = Ok v -> (Z.abs v < 16 ^ Z.of_nat (String.length s))%Z.
Proof.
  unfold int_base16.
  pose proof (split_sign_length (lstrip (transform_decimal_and_space s))) as H1.
  pose proof (lstrip_length (transform_decimal_and_space s)) as H2.
  rewrite transform_length in H2.
  destruct (split_sign _) as [negative t]. simpl in H1.
  pose proof (strip_base16_prefix_length t) as H3.
  destruct (starts_with_underscore _); [discriminate|].
  destruct (scan_digits _ _ _ _ _) as [[[w digits] rest]|] eqn:Hs;
    [|discriminate].
  apply scan_digits_bound in Hs.
  destruct (_ =? _)%nat; [discriminate|].
  destruct (lstrip rest); [|discriminate].
  intros [= <-].
  assert (Z.of_N w < 16 ^ Z.of_nat (String.length s))%Z.
  { assert (16 ^ N.of_nat (String.length (strip_base16_prefix t))
            <= 16 ^ N.of_nat (String.length s))%N.
    { apply N.pow_le_mono_r; lia. }
    assert (Z.of_N (16 ^ N.of_nat (String.length s))
            = 16 ^ Z.of_nat (String.length s))%Z as <-.
    { rewrite N2Z.inj_pow. f_equal. lia. }
    lia. }
  destruct negative; lia.
Qed.

Lemma slice_from_length (n : nat) (s : string) :
  String.length (slice_from n s) = (String.length s - n)%nat.
Proof.
  revert s. induction n as [|n IH]; intros [|c s]; simpl; try lia.
  apply IH.
Qed.

(** X2: the digits of an accepted address name a number of at most 160
    bits, those of an accepted transaction hash one of at most 256
    bits (in absolute value: a sign is let through). *)
Theorem accepted_literals_are_bounded (s : string) :
  (validate_address s = Ok true ->
   exists v, int_base16 (slice_from 2 s) = Ok v /\ (Z.abs v < 2 ^ 160)%Z)
  /\ (validate_transaction_hash s = Ok true ->
      exists v, int_base16 (slice_from 2 s) = Ok v /\ (Z.abs v < 2 ^ 256)%Z).
Proof.
  split; intros H.
  - destruct (validate_address_cases s) as [(_ & Hl & _ & v & Hv)|H'];
      [|congruence].
    exists v. split; [done|]. apply int_base16_bound in Hv.
    rewrite slice_from_length, Hl in Hv. exact Hv.
  - destruct (validate_transaction_hash_cases s) as [(_ & Hl & _ & v & Hv)|H'];
      [|congruence].
    exists v. split; [done|]. apply int_base16_bound in Hv.
    rewrite slice_from_length, Hl in Hv. exact Hv.
Qed.

Lemma accepted_literals_are_bounded_witness :
  let s := "0xffffffffffffffffffffffffffffffffffffffff" in
  validate_address s = Ok true
  /\ exists v, int_base16 (slice_from 2 s) = Ok v /\ (Z.abs v < 2 ^ 160)%Z.
Proof.
  cbv zeta.
  assert (validate_address "0xffffffffffffffffffffffffffffffffffffffff"
          = Ok true) as H by (vm_compute; reflexivity).
  split; [exact H|].
  exact (proj1 (accepted_literals_are_bounded
                  "0xffffffffffffffffffffffffffffffffffffffff") H).
Defined.

Lemma empty_str_true (s : string) : empty_str s = true <-> s = "".
Proof.
  unfold empty_str. simpl. rewrite negb_involutive. apply String.eqb_eq.
Qed.

Lemma empty_str_length (s : string) :
  empty_str s || (String.length s <? 10)%nat = true
  <-> (String.length s < 10)%nat.
Proof.
  rewrite orb_true_iff, empty_str_true, Nat.ltb_lt.
  split; [intros [->|H]; simpl; lia | auto].
Qed.

Lemma asset_missing_true (a : option Asset) :
  match a with None => true | Some x => empty_str (amount x) end = true
  <-> ~ asset_given a.
Proof.
  unfold asset_given. destruct a as [x|].
  - rewrite empty_str_true. split.
    + intros H (y & [= <-] & Hy). done.
    + intros H. destruct (String.eqb_spec (amount x) ""); [done|].
      exfalso. apply H. eauto.
  - split; [intros _ (y & [=] & _) | done].
Qed.

Lemma description_missing_true (t : option EscrowTerms) :
  match t with None => true | Some x => empty_str (description x) end = true
  <-> ~ exists x, t = Some x /\ description x <> "".
Proof.
  destruct t as [x|].
  - rewrite empty_str_true. split.
    + intros H (y & [= <-] & Hy). done.
    + intros H. destruct (String.eqb_spec (description x) ""); [done|].
      exfalso. apply H. eauto.
  - split; [intros _ (y & [=] & _) | done].
Qed.

Lemma deadline_passed_true (now : Z) (t : option EscrowTerms) :
  match t with None => false | Some x => (deadline x <=? now)%Z end = true
  <-> exists x, t = Some x /\ (deadline x <= now)%Z.
Proof.
  destruct t as [x|].
  - rewrite Z.leb_le. split; [eauto | by intros (y & [= <-] & Hy)].
  - split; [done | by intros (y & [=] & _)].
Qed.

Lemma in_append_if_same (m : string) (c : bool) (l : list string) :
  In m (append_if c m l) <-> c = true \/ In m l.
Proof.
  unfold append_if. destruct c.
  - rewrite in_app_iff. simpl. intuition.
  - intuition discriminate.
Qed.

Lemma in_append_if_other (m : string) (c : bool) (m' : string)
    (l : list string) :
  m <> m' -> In m (append_if c m' l) <-> In m l.
Proof.
  intros Hne. unfold append_if. destruct c; [|done].
  rewrite in_app_iff. simpl. intuition congruence.
Qed.

Lemma append_if_nil (c : bool) (m : string) (l : list string) :
  append_if c m l = [] <-> c = false /\ l = [].
Proof.
  unfold append_if. destruct c.
  - split; [intros H%app_eq_nil; by destruct H | by intros [[=] _]].
  - intuition.
Qed.

Lemma negb_true_result (b : bool) :
  negb b = true <-> Ok b = (Ok false : result bool).
Proof. destruct b; simpl; split; (done || by intros [=]). Qed.

Lemma negb_false_result (b : bool) :
  negb b = false <-> Ok b = (Ok true : result bool).
Proof. destruct b; simpl; split; (done || by intros [=]). Qed.

Lemma escrow_id_long_enough (s : string) :
  empty_str s || (String.length s <? 10)%nat = false
  <-> (10 <= String.length s)%nat.
Proof. rewrite <- not_true_iff_false, empty_str_length. lia. Qed.

Lemma asset_present (a : option Asset) :
  match a with None => true | Some x => empty_str (amount x) end = false
  <-> asset_given a.
Proof.
  unfold asset_given. destruct a as [x|].
  - rewrite <- not_true_iff_false, empty_str_true.
    split; [eauto | by intros (y & [= <-] & Hy)].
  - split; [done | by intros (y & [=] & _)].
Qed.

Lemma terms_acceptable (now : Z) (t : option EscrowTerms) :
  match t with None => false | Some x => (deadline x <=? now)%Z end = false
  /\ match t with None => true | Some x => empty_str (description x) end
     = false
  <-> exists x, t = Some x /\ description x <> "" /\ (now < deadline x)%Z.
Proof.
  destruct t as [x|].
  - rewrite Z.leb_gt, <- not_true_iff_false, empty_str_true. split.
    + intros [H1 H2]. eauto.
    + by intros (y & [= <-] & Hy & Hlt).
  - split; [by intros [_ [=]] | by intros (y & [=] & _)].
Qed.

(** The list of errors, as the chain of the eight checks. *)
Lemma validate_escrow_data_checks (now : Z) (e : EscrowData) :
  exists b1 b2 b3,
    validate_address (buyer_address e) = Ok b1
    /\ validate_address (seller_address e) = Ok b2
    /\ validate_address (arbiter_address e) = Ok b3
    /\ validate_escrow_data now e =
       Ok (append_if
             match terms e with
             | None => false
             | Some t => (deadline t <=? now)%Z
             end "Deadline must be in the future"
          (append_if
             match terms e with
             | None => true
             | Some t => empty_str (description t)
             end "Escrow description is required"
          (append_if
             match asset_b e with
             | None => true
             | Some b => empty_str (amount b)
             end "Asset B is required"
          (append_if
             match asset_a e with
             | None => true
             | Some a => empty_str (amount a)
             end "Asset A is required"
          (append_if
             (empty_str (escrow_id e)
              || (String.length (escrow_id e) <? 10)%nat)
             "Invalid escrow ID"
          (append_if (negb b3) "Invalid arbiter address"
          (append_if (negb b2) "Invalid seller address"
          (append_if (negb b1) "Invalid buyer address" [])))))))).
Proof.
  unfold validate_escrow_data.
  assert (forall s, exists b, validate_address s = Ok b) as Htotal.
  { intros s. destruct (validate_address_cases s) as [(H & _)|H]; eauto. }
  destruct (Htotal (buyer_address e)) as [b1 H1].
  destruct (Htotal (seller_address e)) as [b2 H2].
  destruct (Htotal (arbiter_address e)) as [b3 H3].
  exists b1, b2, b3. rewrite H1, H2, H3. repeat split; reflexivity.
Qed.


(** X4: [validate_escrow_data] never raises, and it reports each of its
    eight messages exactly when the rule behind it is broken, whatever
    the other rules say: the three addresses, an id of at least ten
    characters, both assets with an amount, a description, and a
    deadline after [now]; missing terms count as a missing description
    and never as a passed deadline. *)
Theorem validate_escrow_data_reports_all (now : Z) (e : EscrowData) :
  exists errors,
    validate_escrow_data now e = Ok errors
    /\ (In "Invalid buyer address" errors
        <-> validate_address (buyer_address e) = Ok false)
    /\ (In "Invalid seller address" errors
        <-> validate_address (seller_address e) = Ok false)
    /\ (In "Invalid arbiter address" errors
        <-> validate_address (arbiter_address e) = Ok false)
    /\ (In "Invalid escrow ID" errors
        <-> (String.length (escrow_id e) < 10)%nat)
    /\ (In "Asset A is required" errors <-> ~ asset_given (asset_a e))
    /\ (In "Asset B is required" errors <-> ~ asset_given (asset_b e))
    /\ (In "Escrow description is required" errors
        <-> ~ exists t, terms e = Some t /\ description t <> "")
    /\ (In "Deadline must be in the future" errors
        <-> exists t, terms e = Some t /\ (deadline t <= now)%Z).
Proof.
  destruct (validate_escrow_data_checks now e)
    as (b1 & b2 & b3 & H1 & H2 & H3 & ->).
  eexists. split; [reflexivity|].
  rewrite H1, H2, H3, <- empty_str_length, <- !asset_missing_true,
    <- description_missing_true, <- deadline_passed_true,
    <- !negb_true_result.
  repeat split;
    rewrite ?in_append_if_other by discriminate;
    rewrite in_append_if_same;
    rewrite ?in_append_if_other by discriminate;
    simpl; tauto.
Qed.

(** X5: [validate_escrow_data] returns the empty list exactly for an
    escrow with three accepted addresses, an id of at least ten
    characters, two assets with an amount, a description and a
    deadline after [now]. *)
Theorem validate_escrow_data_accepts_iff (now : Z) (e : EscrowData) :
  validate_escrow_data now e = Ok []
  <-> validate_address (buyer_address e) = Ok true
      /\ validate_address (seller_address e) = Ok true
      /\ validate_address (arbiter_address e) = Ok true
      /\ (10 <= String.length (escrow_id e))%nat
      /\ asset_given (asset_a e) /\ asset_given (asset_b e)
      /\ exists t, terms e = Some t /\ description t <> ""
                   /\ (now < deadline t)%Z.
Proof.
  destruct (validate_escrow_data_checks now e)
    as (b1 & b2 & b3 & H1 & H2 & H3 & ->).
  rewrite H1, H2, H3, <- terms_acceptable, <- !asset_present,
    <- escrow_id_long_enough, <- !negb_false_result.
  split.
  - intros [= H]. repeat apply append_if_nil in H as [? H]. tauto.
  - intros (? & ? & ? & ? & ? & ? & ? & ?). f_equal.
    repeat (apply append_if_nil; split; [done|]). done.
Qed.

Lemma append_if_sublist (c : bool) (m : string) (l l' : list string) :
  sublist l l' -> sublist (append_if c m l) (l' ++ [m])%list.
Proof.
  intros H. unfold append_if. destruct c.
  - by apply sublist_app.
  - by apply sublist_inserts_r.
Qed.

(** X6: the errors [validate_escrow_data] returns always come in the
    order of its checks, each at most once: the list is a sub-list of
    the eight messages. *)
Theorem validate_escrow_data_in_order (now : Z) (e : EscrowData) :
  exists errors,
    validate_escrow_data now e = Ok errors
    /\ sublist errors validation_messages.
Proof.
  destruct (validate_escrow_data_checks now e)
    as (b1 & b2 & b3 & _ & _ & _ & ->).
  eexists. split; [reflexivity|].
  change validation_messages with
    (((((((([] ++ ["Invalid buyer address"]) ++ ["Invalid seller address"])
          ++ ["Invalid arbiter address"]) ++ ["Invalid escrow ID"])
        ++ ["Asset A is required"]) ++ ["Asset B is required"])
      ++ ["Escrow description is required"])
     ++ ["Deadline must be in the future"])%list.
  repeat apply append_if_sublist. apply sublist_nil.
Qed.

(** ** More on amounts and fees *)

(** X7: with a negative number of decimals, or one above [2^31 - 1],
    [format_amount] answers ["0.0"] for every amount, readable or not:
    the bad precision is a [ValueError] like an unreadable amount. *)
Theorem format_amount_bad_precision (amount : string) (decimals : Z) :
  (decimals < 0 \/ 2147483647 < decimals)%Z ->
  format_amount amount decimals = Ok "0.0".
Proof.
  intros H. destruct (float_of_str amount) as [x|e] eqn:Hx.
  - rewrite (format_amount_parsed _ _ _ Hx).
    destruct (decimals <? 0)%Z eqn:H1; [reflexivity|].
    destruct (2147483647 <? decimals)%Z eqn:H2; [reflexivity|].
    apply Z.ltb_ge in H1, H2. lia.
  - by rewrite (format_amount_unparsable _ _ _ Hx).
Qed.

Lemma format_amount_bad_precision_witness :
  (-1 < 0 \/ 2147483647 < -1)%Z /\ format_amount "12.5" (-1) = Ok "0.0".
Proof.
  assert (-1 < 0 \/ 2147483647 < -1)%Z as H by (left; reflexivity).
  split; [exact H|]. exact (format_amount_bad_precision "12.5" (-1) H).
Defined.

Lemma zero_spec_float (s : bool) :
  Prim2SF (SF2Prim (S754_zero s)) = S754_zero s.
Proof. destruct s; reflexivity. Qed.

(** A finite, non-zero float times zero is a zero, and taking a zero
    away from it leaves it as it is. *)
Lemma finite_times_zero (x : float) (s : bool) (m : positive) (e : Z) :
  Prim2SF x = S754_finite s m e ->
  (x * 0)%float = SF2Prim (S754_zero s).
Proof.
  intros H. apply Prim2SF_inj.
  rewrite mul_spec, H, zero_spec_float. simpl. by destruct s.
Qed.

Lemma finite_minus_zero (x : float) (s s' : bool) (m : positive) (e : Z) :
  Prim2SF x = S754_finite s m e ->
  (x - SF2Prim (S754_zero s'))%float = x.
Proof.
  intros H. apply Prim2SF_inj.
  rewrite sub_spec, H, zero_spec_float. reflexivity.
Qed.

(** X8: with both fee percentages at zero, the net amount
    [calculate_fees] returns is its total, and the two fees are equal,
    for every amount read as a finite float other than zero. *)
Theorem calculate_fees_without_fees (amount : string) (x : float)
    (s : bool) (m : positive) (e : Z) :
  float_of_str amount = Ok x ->
  Prim2SF x = S754_finite s m e ->
  exists fees,
    calculate_fees amount 0 0 = Ok fees
    /\ fees !! "net_amount" = fees !! "total"
    /\ fees !! "total" = Some (rendered x)
    /\ fees !! "platform_fee" = fees !! "arbiter_fee".
Proof.
  intros Hx Hf. rewrite (calculate_fees_parsed _ _ _ _ Hx).
  eexists. split; [reflexivity|].
  assert ((0 / 100)%float = 0%float) as -> by reflexivity.
  rewrite (finite_times_zero x s m e Hf).
  rewrite !(finite_minus_zero x s s m e Hf).
  repeat split; by simplify_map_eq.
Qed.

Lemma calculate_fees_without_fees_witness :
  float_of_str "100" = Ok 100%float
  /\ Prim2SF 100 = S754_finite false 7036874417766400 (-46)
  /\ exists fees,
       calculate_fees "100" 0 0 = Ok fees
       /\ fees !! "net_amount" = fees !! "total"
       /\ fees !! "total" = Some (rendered 100)
       /\ fees !! "platform_fee" = fees !! "arbiter_fee".
Proof.
  assert (float_of_str "100" = Ok 100%float) as H1 by (vm_compute; reflexivity).
  assert (Prim2SF 100 = S754_finite false 7036874417766400 (-46)) as H2
    by (vm_compute; reflexivity).
  split; [exact H1|]. split; [exact H2|].
  exact (calculate_fees_without_fees "100" 100%float false
           7036874417766400 (-46) H1 H2).
Defined.

(** X9: whatever the amount and the percentages, [calculate_fees]
    returns a record with exactly the four keys [total],
    [platform_fee], [arbiter_fee] and [net_amount]. *)
Theorem calculate_fees_keys (amount : string) (p a : float) :
  exists fees,
    calculate_fees amount p a = Ok fees
    /\ dom fees = ({[ "total"; "platform_fee"; "arbiter_fee"; "net_amount" ]}
                   : gset string).
Proof.
  destruct (float_of_str amount) as [x|e] eqn:H.
  - rewrite (calculate_fees_parsed _ _ _ _ H). eexists.
    split; [reflexivity|]. rewrite !dom_insert_L, dom_singleton_L. set_solver.
  - rewrite (calculate_fees_unparsable _ _ _ _ H). eexists.
    split; [reflexivity|]. unfold zero_fees.
    rewrite !dom_insert_L, dom_singleton_L. set_solver.
Qed.

(** ** Display helpers *)

Lemma length_append (s t : string) :
  String.length (s ++ t) = (String.length s + String.length t)%nat.
Proof.
  induction s as [|c s IH]; [reflexivity|].
  change (S (String.length (s ++ t))
          = S (String.length s + String.length t)%nat).
  congruence.
Qed.

Lemma substring_length (n m : nat) (s : string) :
  (n + m <= String.length s)%nat -> String.length (substring n m s) = m.
Proof.
  revert n m. induction s as [|c s IH]; intros [|n] [|m] H; simpl in *;
    try lia; try reflexivity.
  - f_equal. apply (IH 0%nat). simpl. lia.
  - apply IH. lia.
  - apply IH. lia.
Qed.

Lemma slice_from_substring (n : nat) (s : string) :
  (n <= String.length s)%nat ->
  slice_from n s = substring n (String.length s - n) s.
Proof.
  revert n. induction s as [|c s IH]; intros [|n] H; simpl in *;
    try lia; try reflexivity.
  - f_equal. specialize (IH 0%nat). simpl in IH.
    rewrite Nat.sub_0_r in IH. apply IH. lia.
  - apply IH. lia.
Qed.

Lemma substring_nothing (s : string) : substring 0 0 s = "".
Proof. by destruct s. Qed.

Lemma empty_str_false (s : string) :
  (0 < String.length s)%nat -> empty_str s = false.
Proof. by destruct s; [simpl; lia|]. Qed.

(** X10: for a [length] of at least one and an address of at least
    [2 * length + 2] characters, [format_address] keeps the first and
    the last [length] characters with three dots between them, so the
    result has [2 * length + 3] characters. *)
Theorem format_address_abbreviates (address : string) (length : Z) :
  (1 <= length)%Z ->
  (2 * length + 2 <= Z.of_nat (String.length address))%Z ->
  format_address address length =
    substring 0 (Z.to_nat length) address ++ "..."
    ++ substring (String.length address - Z.to_nat length)
         (Z.to_nat length) address
  /\ Z.of_nat (String.length (format_address address length))
     = (2 * length + 3)%Z.
Proof.
  intros H1 H2.
  assert (format_address address length =
          substring 0 (Z.to_nat length) address ++ "..."
          ++ substring (String.length address - Z.to_nat length)
               (Z.to_nat length) address) as ->.
  { unfold format_address. rewrite empty_str_false by lia.
    assert ((Z.of_nat (String.length address) <? length * 2 + 2)%Z = false)
      as -> by (apply Z.ltb_ge; lia).
    simpl orb. cbv iota. unfold slice_to, slice_from_index, clamp_index.
    assert ((length <? 0)%Z = false) as -> by (apply Z.ltb_ge; lia).
    assert ((- length <? 0)%Z = true) as -> by (apply Z.ltb_lt; lia).
    replace (Nat.min (String.length address) (Z.to_nat length))
      with (Z.to_nat length) by lia.
    replace (Z.to_nat (Z.max 0 (Z.of_nat (String.length address) + - length)))
      with (String.length address - Z.to_nat length)%nat by lia.
    rewrite slice_from_substring by lia.
    do 3 f_equal. lia. }
  split; [reflexivity|].
  rewrite !length_append, !substring_length by lia. simpl. lia.
Qed.

Lemma format_address_abbreviates_witness :
  let address := "0x1234567890abcdef1234567890abcdef12345678" in
  (1 <= 8)%Z
  /\ (2 * 8 + 2 <= Z.of_nat (String.length address))%Z
  /\ format_address address 8 = "0x123456...12345678".
Proof.
  cbv zeta.
  assert (1 <= 8)%Z as H1 by lia.
  assert (2 * 8 + 2 <=
          Z.of_nat (String.length "0x1234567890abcdef1234567890abcdef12345678"))%Z
    as H2 by (simpl; lia).
  split; [exact H1|]. split; [exact H2|].
  exact (proj1 (format_address_abbreviates
                  "0x1234567890abcdef1234567890abcdef12345678" 8 H1 H2)).
Defined.

(** X11: with a [length] of zero, [format_address] does not shorten:
    an address of two characters or more comes back whole, after three
    dots ([address[-0:]] is the whole string). *)
Theorem format_address_zero_length (address : string) :
  (2 <= String.length address)%nat ->
  format_address address 0 = "..." ++ address.
Proof.
  intros H. unfold format_address. rewrite empty_str_false by lia.
  assert ((Z.of_nat (String.length address) <? 0 * 2 + 2)%Z = false)
    as -> by (apply Z.ltb_ge; lia).
  simpl orb. cbv iota. change (- 0)%Z with 0%Z.
  unfold slice_to, slice_from_index, clamp_index.
  change (0 <? 0)%Z with false. cbv iota.
  change (Z.to_nat 0) with 0%nat. rewrite Nat.min_0_r, substring_nothing.
  reflexivity.
Qed.

Lemma format_address_zero_length_witness :
  (2 <= String.length "abcdef")%nat
  /\ format_address "abcdef" 0 = "...abcdef".
Proof.
  assert (2 <= String.length "abcdef")%nat as H by (simpl; lia).
  split; [exact H|]. exact (format_address_zero_length "abcdef" H).
Defined.

Lemma calculate_time_remaining_open (now deadline : Z) :
  (now < deadline)%Z ->
  calculate_time_remaining now deadline =
  MkTimeRemaining (deadline - now)
    ((deadline - now) / (24 * 60 * 60))
    (((deadline - now) mod (24 * 60 * 60)) / (60 * 60))
    (((deadline - now) mod (60 * 60)) / 60)
    ((deadline - now) mod 60) false.
Proof.
  intros H. unfold calculate_time_remaining.
  assert ((deadline - now <=? 0)%Z = false) as -> by (apply Z.leb_gt; lia).
  reflexivity.
Qed.

(** X12: before the deadline, [calculate_time_remaining] splits the
    seconds left without loss: days, hours, minutes and seconds add up
    to [total_seconds = deadline - now], with hours below 24 and
    minutes and seconds below 60, none of them negative. *)
Theorem time_remaining_adds_up (now deadline : Z) :
  (now < deadline)%Z ->
  let t := calculate_time_remaining now deadline in
  expired t = false
  /\ total_seconds t = (deadline - now)%Z
  /\ (days t * 86400 + hours t * 3600 + minutes t * 60 + seconds t
      = total_seconds t)%Z
  /\ (0 <= days t)%Z /\ (0 <= hours t < 24)%Z
  /\ (0 <= minutes t < 60)%Z /\ (0 <= seconds t < 60)%Z.
Proof.
  intros H t. subst t. rewrite (calculate_time_remaining_open _ _ H).
  simpl. set (r := (deadline - now)%Z). assert (0 < r)%Z by (subst r; lia).
  change (24 * 60 * 60)%Z with 86400%Z. change (60 * 60)%Z with 3600%Z.
  pose proof (Z.div_mod r 86400 ltac:(lia)).
  pose proof (Z.mod_pos_bound r 86400 ltac:(lia)).
  pose proof (Z.div_mod (r mod 86400) 3600 ltac:(lia)).
  pose proof (Z.mod_pos_bound (r mod 86400) 3600 ltac:(lia)).
  pose proof (Z.div_mod r 3600 ltac:(lia)).
  pose proof (Z.mod_pos_bound r 3600 ltac:(lia)).
  pose proof (Z.div_mod (r mod 3600) 60 ltac:(lia)).
  pose proof (Z.mod_pos_bound (r mod 3600) 60 ltac:(lia)).
  pose proof (Z.div_mod r 60 ltac:(lia)).
  pose proof (Z.mod_pos_bound r 60 ltac:(lia)).
  assert ((r mod 86400) mod 3600 = r mod 3600)%Z as Ha.
  { apply Z.mod_mod_divide. by exists 24%Z. }
  assert ((r mod 3600) mod 60 = r mod 60)%Z as Hb.
  { apply Z.mod_mod_divide. by exists 60%Z. }
  pose proof (Z.div_pos r 86400 ltac:(lia) ltac:(lia)).
  pose proof (Z.div_pos (r mod 86400) 3600 ltac:(lia) ltac:(lia)).
  pose proof (Z.div_pos (r mod 3600) 60 ltac:(lia) ltac:(lia)).
  assert (r mod 86400 / 3600 < 24)%Z by (apply Z.div_lt_upper_bound; lia).
  assert (r mod 3600 / 60 < 60)%Z by (apply Z.div_lt_upper_bound; lia).
  repeat split; try lia.
Qed.

Lemma time_remaining_adds_up_witness :
  (1000 < 91061)%Z
  /\ let t := calculate_time_remaining 1000 91061 in
     expired t = false
     /\ total_seconds t = (91061 - 1000)%Z
     /\ (days t * 86400 + hours t * 3600 + minutes t * 60 + seconds t
         = total_seconds t)%Z
     /\ (0 <= days t)%Z /\ (0 <= hours t < 24)%Z
     /\ (0 <= minutes t < 60)%Z /\ (0 <= seconds t < 60)%Z.
Proof.
  assert (1000 < 91061)%Z as H by lia.
  split; [exact H|]. exact (time_remaining_adds_up 1000 91061 H).
Defined.

Lemma time_remaining_open_parts (now deadline : Z) :
  (now < deadline)%Z ->
  let t := calculate_time_remaining now deadline in
  (0 <= days t)%Z /\ (0 <= hours t)%Z /\ (0 <= minutes t)%Z
  /\ (0 <= seconds t)%Z
  /\ (days t * 86400 + hours t * 3600 + minutes t * 60 + seconds t
      = deadline - now)%Z.
Proof.
  intros H t. subst t. rewrite (calculate_time_remaining_open _ _ H).
  simpl. set (r := (deadline - now)%Z). assert (0 < r)%Z by (subst r; lia).
  change (24 * 60 * 60)%Z with 86400%Z. change (60 * 60)%Z with 3600%Z.
  pose proof (Z.div_mod r 86400 ltac:(lia)).
  pose proof (Z.mod_pos_bound r 86400 ltac:(lia)).
  pose proof (Z.div_mod (r mod 86400) 3600 ltac:(lia)).
  pose proof (Z.mod_pos_bound (r mod 86400) 3600 ltac:(lia)).
  pose proof (Z.div_mod (r mod 3600) 60 ltac:(lia)).
  pose proof (Z.mod_pos_bound (r mod 3600) 60 ltac:(lia)).
  pose proof (Z.mod_pos_bound r 60 ltac:(lia)).
  assert ((r mod 86400) mod 3600 = r mod 3600)%Z as Ha.
  { apply Z.mod_mod_divide. by exists 24%Z. }
  assert ((r mod 3600) mod 60 = r mod 60)%Z as Hb.
  { apply Z.mod_mod_divide. by exists 60%Z. }
  pose proof (Z.div_pos r 86400 ltac:(lia) ltac:(lia)).
  pose proof (Z.div_pos (r mod 86400) 3600 ltac:(lia) ltac:(lia)).
  pose proof (Z.div_pos (r mod 3600) 60 ltac:(lia) ltac:(lia)).
  repeat split; lia.
Qed.

Lemma decimal_head (n : Z) :
  exists c t, decimal n = String c t /\ is_decimal_digit c = true.
Proof.
  unfold decimal. destruct (N.to_uint (Z.to_N n)); simpl; eauto.
Qed.

Lemma join_head (c : ascii) (t : string) (rest : list string) :
  exists u, join " " (String c t :: rest) = String c u.
Proof. destruct rest as [|p rest]; simpl; eauto. Qed.

(** Before the deadline the list of parts starts with a numeral. *)
Lemma time_parts_head (now deadline : Z) :
  (now < deadline)%Z ->
  exists c t rest,
    time_parts (calculate_time_remaining now deadline) = String c t :: rest
    /\ is_decimal_digit c = true.
Proof.
  intros H.
  destruct (time_remaining_open_parts now deadline H)
    as (Hd & Hh & Hm & Hs & Hsum).
  unfold time_parts.
  set (td := calculate_time_remaining now deadline) in *.
  assert (forall n u, (0 < n)%Z ->
          exists c t, (str_of_int n ++ u)%string = String c t
                      /\ is_decimal_digit c = true) as Hpart.
  { intros n u Hn. unfold str_of_int.
    assert ((n <? 0)%Z = false) as -> by (apply Z.ltb_ge; lia).
    destruct (decimal_head n) as (c & t & -> & Hc). simpl. eauto. }
  destruct (0 <? days td)%Z eqn:H1.
  { apply Z.ltb_lt in H1.
    destruct (Hpart (days td) "d" H1) as (c & t & -> & Hc).
    destruct (0 <? hours td)%Z, (0 <? minutes td)%Z, (0 <? seconds td)%Z;
      simpl; eauto. }
  destruct (0 <? hours td)%Z eqn:H2.
  { apply Z.ltb_lt in H2.
    destruct (Hpart (hours td) "h" H2) as (c & t & -> & Hc).
    destruct (0 <? minutes td)%Z, (0 <? seconds td)%Z; simpl; eauto. }
  destruct (0 <? minutes td)%Z eqn:H3.
  { apply Z.ltb_lt in H3.
    destruct (Hpart (minutes td) "m" H3) as (c & t & -> & Hc).
    destruct (0 <? seconds td)%Z; simpl; eauto. }
  destruct (0 <? seconds td)%Z eqn:H4.
  { apply Z.ltb_lt in H4.
    destruct (Hpart (seconds td) "s" H4) as (c & t & -> & Hc).
    simpl; eauto. }
  apply Z.ltb_ge in H1, H2, H3, H4. lia.
Qed.

(** X13: [format_time_remaining] answers ["Expired"] exactly when the
    deadline is not after [now]; before the deadline it always finds a
    part to show, so that its fallback ["0s"] is never used. *)
Theorem format_time_remaining_expired_iff (now deadline : Z) :
  (format_time_remaining now deadline = "Expired" <-> (deadline <= now)%Z)
  /\ ((now < deadline)%Z ->
      time_parts (calculate_time_remaining now deadline) <> []).
Proof.
  split.
  - unfold format_time_remaining. split.
    + intros Hf. destruct (Z.le_gt_cases deadline now) as [|Hlt]; [done|].
      exfalso. destruct (time_parts_head now deadline Hlt)
        as (c & t & rest & Hp & Hc).
      rewrite (calculate_time_remaining_open _ _ Hlt) in Hf, Hp.
      simpl expired in Hf. cbv iota in Hf. rewrite Hp in Hf.
      destruct (join_head c t rest) as [u Hu]. rewrite Hu in Hf.
      injection Hf as -> _. discriminate Hc.
    + intros Hle. unfold calculate_time_remaining.
      assert ((deadline - now <=? 0)%Z = true) as -> by (apply Z.leb_le; lia).
      reflexivity.
  - intros Hlt. destruct (time_parts_head now deadline Hlt)
      as (c & t & rest & -> & _). discriminate.
Qed.

(** ** Message content *)

Lemma validate_message_fields (m : gmap string value) :
  validate_message m = true ->
  is_Some (m !! "type") /\ is_Some (m !! "timestamp")
  /\ is_Some (m !! "msg_id") /\ is_Some (m !! "data").
Proof.
  unfold validate_message, required_fields. simpl.
  rewrite !andb_true_iff, !dict_contains_true. tauto.
Qed.

Lemma type_of_encoded (i : content_item) (tag : string) :
  UtilsContent.type_is (encode i) tag =
  String.eqb match i with
             | TextItem _ => "text"
             | MetadataItem _ => "metadata"
             | EscrowItem _ => "escrow_data"
             | DisputeItem _ => "dispute_data"
             end tag.
Proof. destruct i; reflexivity. Qed.

(** X14: [extract_text_content] gives back, in order, the texts that
    [create_text_content] wrapped, whatever metadata, escrow or
    dispute content stands between them. *)
Theorem extract_text_content_round_trip (items : list content_item) :
  UtilsContent.extract_text_content (encode <$> items)
  = VStr <$> texts_of items.
Proof.
  induction items as [|i items IH]; [reflexivity|].
  rewrite fmap_cons. simpl UtilsContent.extract_text_content.
  rewrite type_of_encoded, IH. destruct i; reflexivity.
Qed.

(** X15: [extract_metadata] gives back the metadata of the first
    metadata content, and the empty dictionary when there is none. *)
Theorem extract_metadata_round_trip (items : list content_item) :
  UtilsContent.extract_metadata (encode <$> items)
  = VDict (default ∅ (first_metadata items)).
Proof.
  induction items as [|i items IH]; [reflexivity|].
  rewrite fmap_cons. simpl UtilsContent.extract_metadata.
  rewrite type_of_encoded, IH. destruct i; reflexivity.
Qed.

(** X16: [extract_escrow_data] finds the first escrow content, past any
    other content, and returns the record [create_escrow_content] made
    of it: the id, the contract address, the status as its number, the
    trade type as its name, the three addresses and the two
    timestamps; it returns [None] when there is no escrow content. *)
Theorem extract_escrow_data_round_trip (items : list content_item) :
  match first_escrow items with
  | Some e =>
      exists d,
        UtilsContent.extract_escrow_data (encode <$> items) = VDict d
        /\ d !! "escrow_id" = Some (VStr (escrow_id e))
        /\ d !! "contract_address"
           = Some (from_option VStr VNone (contract_address e))
        /\ d !! "status"
           = Some (VInt (UtilsContent.EscrowState_value (Models.status e)))
        /\ d !! "trade_type"
           = Some (VStr (UtilsContent.TradeType_value (trade_type e)))
        /\ d !! "buyer_address" = Some (VStr (buyer_address e))
        /\ d !! "seller_address" = Some (VStr (seller_address e))
        /\ d !! "arbiter_address" = Some (VStr (arbiter_address e))
        /\ d !! "created_at" = Some (VInt (created_at e))
        /\ d !! "updated_at" = Some (VInt (updated_at e))
  | None => UtilsContent.extract_escrow_data (encode <$> items) = VNone
  end.
Proof.
  induction items as [|i items IH]; [reflexivity|].
  rewrite fmap_cons. simpl UtilsContent.extract_escrow_data.
  rewrite type_of_encoded. destruct i; try exact IH.
  simpl. eexists. split; [reflexivity|]. repeat split; by simplify_map_eq.
Qed.

(** X17: [extract_dispute_data] finds the first dispute content, past
    any other content, and returns the record [create_dispute_content]
    made of it; it returns [None] when there is no dispute content. *)
Theorem extract_dispute_data_round_trip (items : list content_item) :
  match first_dispute items with
  | Some r =>
      exists d,
        UtilsContent.extract_dispute_data (encode <$> items) = VDict d
        /\ d !! "dispute_id" = Some (VStr (Disputes.dispute_id r))
        /\ d !! "escrow_id" = Some (VStr (Disputes.escrow_id r))
        /\ d !! "disputing_party" = Some (VStr (Disputes.disputing_party r))
        /\ d !! "reason" = Some (VStr (Disputes.reason r))
        /\ d !! "status" = Some (VStr (Disputes.status r))
        /\ d !! "arbiter_address" = Some (VStr (Disputes.arbiter_address r))
        /\ d !! "created_at" = Some (VInt (Disputes.created_at r))
        /\ d !! "resolved_at"
           = Some (from_option VInt VNone (Disputes.resolved_at r))
        /\ d !! "decision"
           = Some (from_option VStr VNone (Disputes.decision r))
        /\ d !! "arbiter_reasoning"
           = Some (from_option VStr VNone (Disputes.arbiter_reasoning r))
  | None => UtilsContent.extract_dispute_data (encode <$> items) = VNone
  end.
Proof.
  induction items as [|i items IH]; [reflexivity|].
  rewrite fmap_cons. simpl UtilsContent.extract_dispute_data.
  rewrite type_of_encoded. destruct i; try exact IH.
  simpl. eexists. split; [reflexivity|]. repeat split; by simplify_map_eq.
Qed.

(** X18: [create_error_message] of [shared/utils.py] stores the details
    only when they are a non-empty string: empty details leave the
    same record as no details, with the keys [type] and [error]
    alone. *)
Theorem create_error_message_details (error : string) (details : option string) :
  (is_Some (UtilsContent.create_error_message error details !! "details")
   <-> exists d, details = Some d /\ d <> "")
  /\ UtilsContent.create_error_message error (Some "")
     = UtilsContent.create_error_message error None
  /\ UtilsContent.create_error_message error details !! "error"
     = Some (VStr error).
Proof.
  assert (forall s, truthy (VStr s) = true <-> s <> "") as Htruthy.
  { intros s. simpl. rewrite negb_true_iff. apply String.eqb_neq. }
  split; [|split].
  - unfold UtilsContent.create_error_message, UtilsContent.opt_str.
    destruct details as [d|]; simpl from_option.
    + destruct (truthy (VStr d)) eqn:Hd.
      * rewrite lookup_insert_eq. apply Htruthy in Hd.
        split; [eauto | by eexists].
      * split; [intros [x [=]] | intros (x & [= <-] & Hx)].
        apply Htruthy in Hx. congruence.
    + split; [intros [x [=]] | by intros (x & [=] & _)].
  - reflexivity.
  - unfold UtilsContent.create_error_message.
    destruct (truthy _); by simplify_map_eq.
Qed.

(** X19: the records [create_error_message], [create_success_message],
    [create_status_update] and [create_heartbeat_message] of
    [shared/utils.py] are not envelopes of the protocol: none of them
    passes its [validate_message], whatever the arguments. *)
Theorem utils_records_are_not_envelopes :
  (forall error details,
     validate_message (UtilsContent.create_error_message error details)
     = false)
  /\ (forall message data,
        validate_message (UtilsContent.create_success_message message data)
        = false)
  /\ (forall now escrow_id old_status new_status reason,
        validate_message
          (UtilsContent.create_status_update now escrow_id old_status
             new_status reason) = false)
  /\ (forall now later agent_type status,
        validate_message
          (UtilsContent.create_heartbeat_message now later agent_type status)
        = false).
Proof.
  assert (forall m : gmap string value,
            m !! "msg_id" = None -> validate_message m = false) as Hmsg.
  { intros m H. apply not_true_iff_false. intros Hv.
    apply validate_message_fields in Hv as (_ & _ & [x Hx] & _). congruence. }
  split; [|split; [|split]]; intros; apply Hmsg.
  - unfold UtilsContent.create_error_message.
    destruct (truthy _); by simplify_map_eq.
  - unfold UtilsContent.create_success_message.
    destruct (truthy _); by simplify_map_eq.
  - reflexivity.
  - reflexivity.
Qed.

(** ** More on the protocol and the arbiter *)

(** X20: an envelope stops being valid as soon as any one of the four
    required fields is deleted, and stays valid when any field is added
    or overwritten. *)
Theorem validate_message_fields_needed (m : gmap string value) :
  (forall field, In field required_fields ->
                 validate_message (delete field m) = false)
  /\ (forall k v, validate_message m = true ->
                  validate_message (<[ k := v ]> m) = true).
Proof.
  split.
  - intros field Hin. apply not_true_iff_false.
    intros (H1 & H2 & H3 & H4)%validate_message_fields.
    unfold required_fields in Hin. simpl in Hin.
    destruct Hin as [<-|[<-|[<-|[<-|[]]]]];
      rewrite lookup_delete_eq in *;
      by match goal with H : is_Some None |- _ => destruct H end.
  - intros k v (H1 & H2 & H3 & H4)%validate_message_fields.
    unfold validate_message, required_fields. simpl.
    rewrite !andb_true_iff, !dict_contains_true.
    repeat split; apply lookup_insert_is_Some';  by right.
Qed.

Lemma analyze_dispute_sized (d : gmap string value) (n : nat) :
  len (dict_get d "evidence" (VList [])) = Ok n ->
  exists updates : gmap string value -> gmap string value,
    analyze_dispute d =
    Ok (updates
          {[ "dispute_id" := dict_get d "dispute_id" VNone;
             "parties" :=
               VDict {[ "buyer" := dict_get d "buyer_address" VNone;
                        "seller" := dict_get d "seller_address" VNone ]};
             "evidence" := dict_get d "evidence" (VList []);
             "recommendation" := VStr "REQUIRES_MORE_EVIDENCE";
             "confidence" := VFloat 0.5;
             "reasoning" := VStr "Insufficient evidence to make a decision";
             "required_evidence" :=
               VList [ VStr "Transaction proof";
                       VStr "Communication logs";
                       VStr "Delivery confirmation" ] ]})
    /\ forall m k,
         k <> "recommendation" -> k <> "confidence" -> k <> "reasoning" ->
         updates m !! k = m !! k.
Proof.
  intros Hlen. unfold analyze_dispute. rewrite Hlen.
  unfold mbind, result_bind.
  destruct (3 <=? n)%nat; [|destruct (1 <=? n)%nat].
  - eexists (fun m => <[ "reasoning" := _ ]>
                      (<[ "confidence" := _ ]>
                       (<[ "recommendation" := _ ]> m))).
    split; [reflexivity|]. intros m k H1 H2 H3.
    by rewrite !lookup_insert_ne.
  - eexists (fun m => <[ "reasoning" := _ ]>
                      (<[ "confidence" := _ ]>
                       (<[ "recommendation" := _ ]> m))).
    split; [reflexivity|]. intros m k H1 H2 H3.
    by rewrite !lookup_insert_ne.
  - exists (fun m => m). split; [reflexivity | done].
Qed.

(** X21: whatever it recommends, the analysis [analyze_dispute] returns
    carries the dispute id, the two parties and the evidence as they
    came in, and always the same list of three kinds of evidence to
    ask for, also when it recommends a release or a refund. *)
Theorem analysis_carries_the_case (d : gmap string value) (n : nat) :
  len (dict_get d "evidence" (VList [])) = Ok n ->
  exists analysis,
    analyze_dispute d = Ok analysis
    /\ analysis !! "dispute_id" = Some (dict_get d "dispute_id" VNone)
    /\ analysis !! "parties"
       = Some (VDict {[ "buyer" := dict_get d "buyer_address" VNone;
                        "seller" := dict_get d "seller_address" VNone ]})
    /\ analysis !! "evidence" = Some (dict_get d "evidence" (VList []))
    /\ analysis !! "required_evidence"
       = Some (VList [ VStr "Transaction proof"; VStr "Communication logs";
                       VStr "Delivery confirmation" ]).
Proof.
  intros (updates & -> & Hup)%analyze_dispute_sized.
  eexists. split; [reflexivity|].
  repeat split; (rewrite Hup by discriminate); by simplify_map_eq.
Qed.

Lemma analysis_carries_the_case_witness :
  let d : gmap string value :=
    {[ "dispute_id" := VStr "dispute_7";
       "evidence" := VList [VStr "a"; VStr "b"; VStr "c"] ]} in
  len (dict_get d "evidence" (VList [])) = Ok 3%nat
  /\ exists analysis,
       analyze_dispute d = Ok analysis
       /\ analysis !! "dispute_id" = Some (dict_get d "dispute_id" VNone)
       /\ analysis !! "parties"
          = Some (VDict {[ "buyer" := dict_get d "buyer_address" VNone;
                           "seller" := dict_get d "seller_address" VNone ]})
       /\ analysis !! "evidence" = Some (dict_get d "evidence" (VList []))
       /\ analysis !! "required_evidence"
          = Some (VList [ VStr "Transaction proof"; VStr "Communication logs";
                          VStr "Delivery confirmation" ]).
Proof.
  cbv zeta. split; [reflexivity|].
  exact (analysis_carries_the_case
           {[ "dispute_id" := VStr "dispute_7";
              "evidence" := VList [VStr "a"; VStr "b"; VStr "c"] ]}
           3%nat eq_refl).
Defined.

Lemma analyze_dispute_confidence (d : gmap string value) (n : nat) :
  len (dict_get d "evidence" (VList [])) = Ok n ->
  exists analysis,
    analyze_dispute d = Ok analysis
    /\ analysis !! "confidence" =
       Some (VFloat (if (n =? 0)%nat then 0.5%float
                     else if (n <=? 2)%nat then 0.6%float
                     else 0.8%float)).
Proof.
  intros Hlen. unfold analyze_dispute. rewrite Hlen. simpl.
  destruct n as [|[|[|n]]]; simpl;
    (eexists; split; [reflexivity|]); by simplify_map_eq.
Qed.

(** X22: more evidence never lowers the confidence: of two disputes,
    the one with at least as many evidence items gets at least the
    confidence of the other. *)
Theorem confidence_grows_with_evidence (d1 d2 : gmap string value)
    (n1 n2 : nat) :
  len (dict_get d1 "evidence" (VList [])) = Ok n1 ->
  len (dict_get d2 "evidence" (VList [])) = Ok n2 ->
  (n1 <= n2)%nat ->
  exists a1 a2 c1 c2,
    analyze_dispute d1 = Ok a1 /\ analyze_dispute d2 = Ok a2
    /\ a1 !! "confidence" = Some (VFloat c1)
    /\ a2 !! "confidence" = Some (VFloat c2)
    /\ (c1 <=? c2)%float = true.
Proof.
  intros (a1 & -> & H1)%analyze_dispute_confidence
         (a2 & -> & H2)%analyze_dispute_confidence Hle.
  do 4 eexists. repeat split; [exact H1 | exact H2 |].
  destruct n1 as [|[|[|n1]]], n2 as [|[|[|n2]]]; try lia; reflexivity.
Qed.

Lemma confidence_grows_with_evidence_witness :
  let d1 : gmap string value := {[ "evidence" := VList [VStr "a"] ]} in
  let d2 : gmap string value :=
    {[ "evidence" := VList [VStr "a"; VStr "b"; VStr "c"] ]} in
  len (dict_get d1 "evidence" (VList [])) = Ok 1%nat
  /\ len (dict_get d2 "evidence" (VList [])) = Ok 3%nat
  /\ (1 <= 3)%nat
  /\ exists a1 a2 c1 c2,
       analyze_dispute d1 = Ok a1 /\ analyze_dispute d2 = Ok a2
       /\ a1 !! "confidence" = Some (VFloat c1)
       /\ a2 !! "confidence" = Some (VFloat c2)
       /\ (c1 <=? c2)%float = true.
Proof.
  cbv zeta.
  assert (1 <= 3)%nat as H by lia.
  split; [reflexivity|]. split; [reflexivity|]. split; [exact H|].
  exact (confidence_grows_with_evidence
           {[ "evidence" := VList [VStr "a"] ]}
           {[ "evidence" := VList [VStr "a"; VStr "b"; VStr "c"] ]}
           1%nat 3%nat eq_refl eq_refl H).
Defined.

(** ** More on the oracle *)

(** X23: when the request, its status check, the decoding of the body
    and of the answer all succeed, [verify_transaction_with_ai] returns
    the decoded answer as it is: it is not checked for a [verified] or a
    [confidence] field, and need not even be a dictionary. *)
Theorem verify_passes_answer_through (env : environment)
    (td : gmap string value) (key : string) (r : response)
    (body answer v : value) :
  ASI_ONE_API_KEY env = Some key -> key <> "" ->
  requests_post env key (prompt_fields td) = Ok r ->
  raise_for_status r = Ok tt ->
  json r = Ok body ->
  content_of body = Ok answer ->
  json_loads env answer = Ok v ->
  verify_transaction_with_ai env td = Ok v.
Proof.
  intros Hkey Hne Hpost Hst Hjs Hc Hl.
  rewrite (verify_configured env td key Hkey Hne), Hpost.
  unfold mbind, result_bind. rewrite Hst, Hjs, Hc, Hl. reflexivity.
Qed.

Lemma verify_passes_answer_through_witness :
  verify_transaction_with_ai (answering_oracle "7" (VInt 7)) ∅ = Ok (VInt 7).
Proof.
  assert ("key" <> "") as Hne by discriminate.
  exact (verify_passes_answer_through (answering_oracle "7" (VInt 7)) ∅ "key"
           (MkResponse (Ok tt)
              (Ok (VDict {[ "choices" :=
                    VList [ VDict {[ "message" :=
                      VDict {[ "content" := VStr "7" ]} ]} ] ]})))
           _ (VStr "7") (VInt 7)
           eq_refl Hne eq_refl eq_refl eq_refl eq_refl eq_refl).
Defined.

(** X24: when the answer of the service cannot be decoded, the error
    text of the failure record depends on the exception: a
    [JSONDecodeError] gives the fixed text of the inner handler, any
    other exception (a [TypeError] for an answer that is not a string)
    falls through to the outer handler and gives its own message. *)
Theorem verify_reports_decoding_failure (env : environment)
    (td : gmap string value) (key : string) (r : response)
    (body answer : value) (e : exn) :
  ASI_ONE_API_KEY env = Some key -> key <> "" ->
  requests_post env key (prompt_fields td) = Ok r ->
  raise_for_status r = Ok tt ->
  json r = Ok body ->
  content_of body = Ok answer ->
  json_loads env answer = Raise e ->
  verify_transaction_with_ai env td =
  Ok (not_verified
        (match exn_cls e with
         | JSONDecodeError => "Failed to parse AI response"
         | _ => exn_msg e
         end)).
Proof.
  intros Hkey Hne Hpost Hst Hjs Hc Hl.
  rewrite (verify_configured env td key Hkey Hne), Hpost.
  unfold mbind, result_bind. rewrite Hst, Hjs, Hc, Hl.
  unfold try_except. simpl. destruct (exn_cls e); reflexivity.
Qed.

Lemma verify_reports_decoding_failure_witness :
  let env :=
    MkEnvironment (Some "key")
      (fun _ _ =>
         Ok (MkResponse (Ok tt)
               (Ok (VDict {[ "choices" :=
                     VList [ VDict {[ "message" :=
                       VDict {[ "content" := VInt 7 ]} ]} ] ]}))))
      (fun _ => raise JSONDecodeError "Expecting value") in
  verify_transaction_with_ai env ∅ =
  Ok (not_verified "the JSON object must be str, bytes or bytearray").
Proof.
  cbv zeta.
  assert ("key" <> "") as Hne by discriminate.
  exact (verify_reports_decoding_failure
           (MkEnvironment (Some "key")
              (fun _ _ =>
                 Ok (MkResponse (Ok tt)
                       (Ok (VDict {[ "choices" :=
                             VList [ VDict {[ "message" :=
                               VDict {[ "content" := VInt 7 ]} ]} ] ]}))))
              (fun _ => raise JSONDecodeError "Expecting value"))
           ∅ "key"
           (MkResponse (Ok tt)
              (Ok (VDict {[ "choices" :=
                    VList [ VDict {[ "message" :=
                      VDict {[ "content" := VInt 7 ]} ]} ] ]})))
           _ (VInt 7)
           (MkExn TypeError "the JSON object must be str, bytes or bytearray")
           eq_refl Hne eq_refl eq_refl eq_refl eq_refl eq_refl).
Defined.
